(** * Canvas consistency layer of the Plait MCP server and its web client

    A shallow embedding of
      - [frontend/src/App.tsx]: the Binding Validator
        ([validateAndFixBindings]), the push-message handler
        ([handleWebSocketMessage], [convertPlaitElement]) and the bulk upload
        ([syncToBackend], [convertToBackendFormat]);
      - the MCP server entry point: [syncToCanvas], [createElementOnCanvas]
        and the [CallToolRequestSchema] handler.

    JavaScript values are modelled as trees, as [JSON.parse] delivers them;
    effects (network calls, thrown errors, pending timeouts) are threaded
    explicitly. What the engine and the drawing toolkit decide (the printing
    of numbers, the code units of a string, [idCreator], [buildText]) is
    taken as a parameter. *)

From Stdlib Require Import List String Ascii Bool ZArith QArith DecimalString.
From Stdlib Require Import Lia DecimalNat DecimalFacts.
Import ListNotations.
Open Scope string_scope.

#[local] Set Warnings "-register-all".

(* ===================================================================== *)
(** ** JavaScript values *)
(* ===================================================================== *)

(** Values as they reach the program: every payload comes out of
    [JSON.parse] (a push message, an HTTP response, the arguments of a tool
    call), so numbers are finite and no two sub-objects share a reference.
    [JUndefined] is what reading a missing property yields. An object is its
    list of own properties in enumeration order. *)
Inductive JsVal : Type :=
| JUndefined
| JNull
| JBool (b : bool)
| JNum (q : Q)
| JStr (s : string)
| JArr (items : list JsVal)
| JObj (props : list (string * JsVal)).

(** The own properties of an object. *)
Definition Obj : Type := list (string * JsVal).

(** [ToBoolean]: what [if (v)], [!v] and [||] test. *)
Definition truthy (v : JsVal) : bool :=
  match v with
  | JUndefined | JNull => false
  | JBool b => b
  | JNum q => negb (Qeq_bool q 0)
  | JStr s => negb (s =? "")
  | JArr _ | JObj _ => true
  end.

(** [typeof v === "object"]: objects, arrays and [null]. *)
Definition typeof_object (v : JsVal) : bool :=
  match v with
  | JNull | JArr _ | JObj _ => true
  | _ => false
  end.

(** [Array.isArray]. *)
Definition isArray (v : JsVal) : bool :=
  match v with JArr _ => true | _ => false end.

(** SameValueZero, the comparison of [Map] keys and of [Array.includes].
    Objects and arrays compare by reference, and distinct nodes of a parsed
    tree are distinct references. *)
Definition sameValueZero (a b : JsVal) : bool :=
  match a, b with
  | JUndefined, JUndefined => true
  | JNull, JNull => true
  | JBool x, JBool y => Bool.eqb x y
  | JNum x, JNum y => Qeq_bool x y
  | JStr x, JStr y => (x =? y)
  | _, _ => false
  end.

(** [a === b] against a string literal, the only use the program makes. *)
Definition strictEqStr (a : JsVal) (s : string) : bool :=
  match a with JStr x => (x =? s) | _ => false end.

(** [arr.includes(v)]. *)
Definition includes (arr : list JsVal) (v : JsVal) : bool :=
  existsb (fun x => sameValueZero x v) arr.

(** [o[k]] on the own properties of [o]. *)
Fixpoint lookup (k : string) (o : Obj) : JsVal :=
  match o with
  | [] => JUndefined
  | (k', v) :: o' => if (k' =? k) then v else lookup k o'
  end.

(** [k in o]. *)
Fixpoint hasProp (k : string) (o : Obj) : bool :=
  match o with
  | [] => false
  | (k', _) :: o' => (k' =? k) || hasProp k o'
  end.

(** [o[k] = v]: an existing property keeps its place, a new one goes last.
    (The program only assigns names that are not array indices.) *)
Fixpoint setProp (k : string) (v : JsVal) (o : Obj) : Obj :=
  match o with
  | [] => [(k, v)]
  | (k', v') :: o' =>
      if (k' =? k) then (k', v) :: o' else (k', v') :: setProp k v o'
  end.

(** [delete o[k]], also what a rest pattern leaves out. *)
Fixpoint removeProp (k : string) (o : Obj) : Obj :=
  match o with
  | [] => []
  | (k', v') :: o' =>
      if (k' =? k) then removeProp k o' else (k', v') :: removeProp k o'
  end.

(** [v.k] where [v] is known not to be [null] or [undefined]: primitives and
    arrays have none of the property names the program reads. *)
Definition getProp (v : JsVal) (k : string) : JsVal :=
  match v with
  | JObj o => lookup k o
  | _ => JUndefined
  end.

(** [a || b]. *)
Definition js_or (a b : JsVal) : JsVal := if truthy a then a else b.

(* ===================================================================== *)
(** ** [Map] *)
(* ===================================================================== *)

(** A [Map] as its entries in insertion order. *)
Definition JsMap (V : Type) : Type := list (JsVal * V).

(** [m.set(k, v)]: an entry with the same key keeps its key and place and
    takes the new value; otherwise a new entry is added last. *)
Fixpoint Map_set {V : Type} (m : JsMap V) (k : JsVal) (v : V) : JsMap V :=
  match m with
  | [] => [(k, v)]
  | (k', v') :: m' =>
      if sameValueZero k' k then (k', v) :: m' else (k', v') :: Map_set m' k v
  end.

(** [m.get(k)]; [None] is [undefined]. *)
Fixpoint Map_get {V : Type} (m : JsMap V) (k : JsVal) : option V :=
  match m with
  | [] => None
  | (k', v) :: m' => if sameValueZero k' k then Some v else Map_get m' k
  end.

(** [m.has(k)], also what [!m.get(k)] tests when the values are objects. *)
Definition Map_has {V : Type} (m : JsMap V) (k : JsVal) : bool :=
  match Map_get m k with Some _ => true | None => false end.

(** [new Map(entries)]. *)
Definition Map_of {V : Type} (entries : list (JsVal * V)) : JsMap V :=
  fold_left (fun m e => Map_set m (fst e) (snd e)) entries [].

(* ===================================================================== *)
(** ** The Binding Validator (App.tsx) *)
(* ===================================================================== *)

(** The callback given to [boundElements.filter]. *)
Definition bindingFilter (elementMap : JsMap Obj) (binding : JsVal) : bool :=
  if negb (truthy binding) || negb (typeof_object binding) then false
  else if negb (truthy (getProp binding "id"))
          || negb (truthy (getProp binding "type")) then false
  else
    match Map_get elementMap (getProp binding "id") with
    | None => false
    | Some _ =>
        if negb (includes [JStr "text"; JStr "arrow"] (getProp binding "type"))
        then false
        else true
    end.

(** The part of the [elements.map] callback that repairs [boundElements]. *)
Definition fixBoundElements (elementMap : JsMap Obj) (fixedElement : Obj) : Obj :=
  if truthy (lookup "boundElements" fixedElement) then
    match lookup "boundElements" fixedElement with
    | JArr bs =>
        let kept := filter (bindingFilter elementMap) bs in
        let fixedElement := setProp "boundElements" (JArr kept) fixedElement in
        if (List.length kept =? 0)%nat
        then setProp "boundElements" JNull fixedElement
        else fixedElement
    | _ => setProp "boundElements" JNull fixedElement
    end
  else fixedElement.

(** The part of the callback that repairs [containerId]. *)
Definition fixContainerId (elementMap : JsMap Obj) (fixedElement : Obj) : Obj :=
  if truthy (lookup "containerId" fixedElement) then
    match Map_get elementMap (lookup "containerId" fixedElement) with
    | None => setProp "containerId" JNull fixedElement
    | Some _ => fixedElement
    end
  else fixedElement.

(** The [elements.map] callback: a copy of the element ([{ ...element }]),
    repaired. *)
Definition fixElement (elementMap : JsMap Obj) (element : Obj) : Obj :=
  let fixedElement := element in
  let fixedElement := fixBoundElements elementMap fixedElement in
  fixContainerId elementMap fixedElement.

(** [new Map(elements.map((el) => [el.id!, el]))]. *)
Definition elementMapOf (elements : list Obj) : JsMap Obj :=
  Map_of (map (fun el => (lookup "id" el, el)) elements).

(** [validateAndFixBindings]. *)
Definition validateAndFixBindings (elements : list Obj) : list Obj :=
  let elementMap := elementMapOf elements in
  map (fixElement elementMap) elements.

(** Some element of the batch has the id [k]. *)
Definition present (batch : list Obj) (k : JsVal) : bool :=
  existsb (fun el => sameValueZero (lookup "id" el) k) batch.

(** A binding type the validator accepts: ["text"] or ["arrow"]. *)
Definition bindingType (v : JsVal) : bool :=
  includes [JStr "text"; JStr "arrow"] v.

(** [null] or [undefined]: a property that holds no value. *)
Definition absent (v : JsVal) : bool :=
  match v with JUndefined | JNull => true | _ => false end.

(** The names [cleanElementForPlait] destructures away. *)
Definition bookkeepingFields : list string :=
  ["createdAt"; "updatedAt"; "version"; "syncedAt"; "source"; "syncTimestamp"].

(** [cleanElementForPlait]: the rest of the element once the bookkeeping
    fields are taken out. *)
Definition cleanElementForPlait (element : Obj) : Obj :=
  fold_left (fun o k => removeProp k o) bookkeepingFields element.

(* ===================================================================== *)
(** ** Effects: thrown errors and state *)
(* ===================================================================== *)

(** A computation either returns or throws an [Error] with a message. *)
Inductive Result (A : Type) : Type :=
| Ok (a : A)
| Throw (message : string).
Arguments Ok {A} a.
Arguments Throw {A} message.

(** Code that reads and writes a state [S] and may throw. What was written
    before a throw stays written. *)
Definition M (S A : Type) : Type := S -> Result A * S.

Definition ret {S A : Type} (a : A) : M S A := fun s => (Ok a, s).

Definition bind {S A B : Type} (c : M S A) (k : A -> M S B) : M S B :=
  fun s =>
    match c s with
    | (Ok a, s') => k a s'
    | (Throw e, s') => (Throw e, s')
    end.

Definition throw {S A : Type} (message : string) : M S A :=
  fun s => (Throw message, s).

(** [try { c } catch (error) { h(error.message) }]. *)
Definition try_catch {S A : Type} (c : M S A) (h : string -> M S A) : M S A :=
  fun s =>
    match c s with
    | (Ok a, s') => (Ok a, s')
    | (Throw e, s') => h e s'
    end.

Definition liftR {S A : Type} (r : Result A) : M S A := fun s => (r, s).

Definition gets {S A : Type} (f : S -> A) : M S A := fun s => (Ok (f s), s).

Definition modify {S : Type} (f : S -> S) : M S unit := fun s => (Ok tt, f s).

Declare Scope js_scope.
Delimit Scope js_scope with js.
Notation "x <- c ;; k" := (bind c (fun x => k))
  (at level 61, c at next level, right associativity) : js_scope.
Notation "c ;;; k" := (bind c (fun _ => k))
  (at level 61, right associativity) : js_scope.

(** [mapM]: [arr.map(f)] for a callback that may throw. *)
Fixpoint mapM {S A B : Type} (f : A -> M S B) (l : list A) : M S (list B) :=
  match l with
  | [] => ret []
  | x :: r => (y <- f x ;; ys <- mapM f r ;; ret (y :: ys))%js
  end.

(** The engine's message for reading a property of [null] or [undefined]. *)
Definition typeErrorMessage (v : JsVal) (k : string) : string :=
  "Cannot read properties of "
  ++ (match v with JNull => "null" | _ => "undefined" end)
  ++ " (reading '" ++ k ++ "')".

(** [v.k] in general: a [TypeError] on [null] and [undefined]. *)
Definition getPropE (v : JsVal) (k : string) : Result JsVal :=
  match v with
  | JUndefined | JNull => Throw (typeErrorMessage v k)
  | _ => Ok (getProp v k)
  end.

(** One [fetch] call: where it goes and the value handed to
    [JSON.stringify] for its body. *)
Record Request : Type := mkRequest {
  req_url : string;
  req_method : string;
  req_body : JsVal
}.

(** What a [fetch] call meets: the promise rejects (endpoint unreachable),
    or a response arrives; [res_json] is what [response.json()] gives, a
    throw when the body is not JSON. *)
Inductive FetchOutcome : Type :=
| Rejects (message : string)
| Responds (res_ok : bool) (res_status : N) (res_statusText : string)
           (res_json : Result JsVal).

(** The network as the program meets it. *)
Definition Network : Type := Request -> FetchOutcome.

(** Decimal digits of a number, as a template literal prints it. *)
Definition decimal (n : N) : string := NilZero.string_of_uint (N.to_uint n).

(* ===================================================================== *)
(** ** The engine: string conversion and object spread *)
(* ===================================================================== *)

(** The first thrown error of a list of results, or all their values. *)
Fixpoint sequenceR {A : Type} (rs : list (Result A)) : Result (list A) :=
  match rs with
  | [] => Ok []
  | Throw e :: _ => Throw e
  | Ok a :: rs' =>
      match sequenceR rs' with
      | Ok l => Ok (a :: l)
      | Throw e => Throw e
      end
  end.

(** The indexed properties of an array or of a string: ["0"], ["1"], ... *)
Fixpoint indexed (i : nat) (items : list JsVal) : Obj :=
  match items with
  | [] => []
  | x :: r => (NilZero.string_of_uint (Nat.to_uint i), x) :: indexed (S i) r
  end.

Section Engine.

(** What the engine decides, outside the repository: the digits
    [Number.prototype.toString] prints, and the UTF-16 code units a string
    is indexed by, each as a string of length one. *)
Variable numberToString : Q -> string.
Variable codeUnits : string -> list JsVal.

(** [${v}] in a template literal, [ToString(v)]: an array joins its items
    with commas, [null] and [undefined] items as the empty string; an object
    is ["[object Object]"], unless its own [toString] property (never a
    function in parsed JSON) hides the inherited one, which is a
    [TypeError]. *)
Fixpoint toStr (v : JsVal) : Result string :=
  match v with
  | JUndefined => Ok "undefined"
  | JNull => Ok "null"
  | JBool b => Ok (if b then "true" else "false")
  | JNum q => Ok (numberToString q)
  | JStr s => Ok s
  | JArr items =>
      match sequenceR (map (fun x => match x with
                                     | JUndefined | JNull => Ok ""
                                     | _ => toStr x
                                     end) items) with
      | Ok parts => Ok (String.concat "," parts)
      | Throw e => Throw e
      end
  | JObj o =>
      if hasProp "toString" o
      then Throw "Cannot convert object to primitive value"
      else Ok "[object Object]"
  end.

(** The own enumerable properties an object spread [{ ...v }] copies: those
    of an object, the indexed items of an array, the indexed code units of a
    string, none of anything else. *)
Definition spread (v : JsVal) : Obj :=
  match v with
  | JObj o => o
  | JArr items => indexed 0 items
  | JStr s => indexed 0 (codeUnits s)
  | _ => []
  end.

End Engine.

(* ===================================================================== *)
(** ** The web client (App.tsx) *)
(* ===================================================================== *)

Inductive SyncStatus : Type := idle | syncing | success | error.

(** The state the client's callbacks read and write. *)
Record App : Type := mkApp {
  (** [boardRef.current.children]; [None] until [afterInit] has run. *)
  board : option (list JsVal);
  (** the [elements] state ([useState<PlaitElement[]>]). *)
  elements : list Obj;
  (** how many ids [idCreator] has handed out. *)
  idCount : nat;
  syncStatus : SyncStatus;
  lastSyncTime : option string;
  (** the [fetch] calls made so far, oldest first. *)
  sent : list Request;
  (** the pending [setTimeout] calls of [syncToBackend], oldest first: the
      delay in milliseconds and the status the callback will set. *)
  timeouts : list (N * SyncStatus)
}.

Definition set_board (b : option (list JsVal)) (a : App) : App :=
  mkApp b (elements a) (idCount a) (syncStatus a) (lastSyncTime a) (sent a)
        (timeouts a).
Definition set_idCount (n : nat) (a : App) : App :=
  mkApp (board a) (elements a) n (syncStatus a) (lastSyncTime a) (sent a)
        (timeouts a).
Definition setSyncStatus (st : SyncStatus) (a : App) : App :=
  mkApp (board a) (elements a) (idCount a) st (lastSyncTime a) (sent a)
        (timeouts a).
Definition setLastSyncTime (t : string) (a : App) : App :=
  mkApp (board a) (elements a) (idCount a) (syncStatus a) (Some t) (sent a)
        (timeouts a).
Definition add_sent (r : Request) (a : App) : App :=
  mkApp (board a) (elements a) (idCount a) (syncStatus a) (lastSyncTime a)
        (sent a ++ [r]) (timeouts a).

(** [setTimeout(() => setSyncStatus(st), delay)]. *)
Definition setTimeout (st : SyncStatus) (delay : N) (a : App) : App :=
  mkApp (board a) (elements a) (idCount a) (syncStatus a) (lastSyncTime a)
        (sent a) (timeouts a ++ [(delay, st)]).

(** The oldest pending timeout runs its callback. *)
Definition runTimeout (a : App) : App :=
  match timeouts a with
  | [] => a
  | (_, st) :: rest =>
      mkApp (board a) (elements a) (idCount a) st (lastSyncTime a) (sent a)
            rest
  end.

(** [Transforms.insertNode(board, node, [i])] on the top level: the node
    goes in at index [i]. *)
Definition insertNode (children : list JsVal) (node : JsVal) (i : nat)
  : list JsVal :=
  firstn i children ++ node :: skipn i children.

Section Client.

(** The drawing toolkit, outside the repository: the [n]-th id that
    [idCreator()] returns, and [buildText(text, align)] ([align] is
    [JUndefined] when left out), which may throw. *)
Variable idCreator : nat -> string.
Variable buildText : JsVal -> JsVal -> Result JsVal.

(** The engine, as above. *)
Variable numberToString : Q -> string.
Variable codeUnits : string -> list JsVal.

(** [idCreator()]. *)
Definition newId : M App JsVal :=
  (n <- gets idCount ;;
   modify (set_idCount (S n)) ;;;
   ret (JStr (idCreator n)))%js.

(** The callback of [element.texts?.map]. *)
Definition convertArrowLineText (arrowLine : JsVal) : M App JsVal :=
  (text <- liftR (getPropE arrowLine "text") ;;
   built <- liftR (buildText (js_or text (JStr "")) JUndefined) ;;
   ret (JObj (setProp "text" built (spread codeUnits arrowLine))))%js.

(** [convertPlaitElement]. *)
Definition convertPlaitElement (element : JsVal) : M App JsVal :=
  (type <- liftR (getPropE element "type") ;;
   if strictEqStr type "geometry" then
     id <- newId ;;
     text <- liftR (buildText (js_or (getProp element "text") (JStr ""))
                              (js_or (getProp element "textAlign")
                                     (JStr "center"))) ;;
     ret (JObj (setProp "text" text
                        (setProp "id" id (spread codeUnits element))))
   else if strictEqStr type "arrow-line" then
     id <- newId ;;
     texts <- match getProp element "texts" with
              | JUndefined | JNull => ret JUndefined
              | JArr items =>
                  ts <- mapM convertArrowLineText items ;; ret (JArr ts)
              | _ => throw "element.texts?.map is not a function"
              end ;;
     ret (JObj (setProp "texts" texts
                        (setProp "id" id (spread codeUnits element))))
   else ret JUndefined)%js.

(** [boardRef.current!.children]. *)
Definition boardChildren : M App (list JsVal) :=
  fun a =>
    match board a with
    | Some cs => (Ok cs, a)
    | None => (Throw (typeErrorMessage JNull "children"), a)
    end.

(** [handleWebSocketMessage]: the [switch] on [data.type] inside its
    [try]; whatever is thrown is logged and dropped. *)
Definition handleWebSocketMessage (data : JsVal) : M App unit :=
  try_catch
    (type <- liftR (getPropE data "type") ;;
     if strictEqStr type "element_created" then
       element <- convertPlaitElement (getProp data "element") ;;
       children <- boardChildren ;;
       modify (set_board
                 (Some (insertNode children element (List.length children))))
     else if strictEqStr type "elements_synced" then ret tt
     else if strictEqStr type "sync_status" then ret tt
     else ret tt)%js
    (fun _ => ret tt).

(** [convertToBackendFormat]: [{ ...element }]. *)
Definition convertToBackendFormat (element : Obj) : Obj := element.

(** The element list [syncToBackend] puts in the request body. *)
Definition backendElements (els : list Obj) : list Obj :=
  let activeElements :=
    filter (fun el => negb (truthy (lookup "isDeleted" el))) els in
  map convertToBackendFormat activeElements.

(** [fetch]: the call is recorded, the network decides the outcome. *)
Definition client_fetch (net : Network) (r : Request)
  : M App (bool * Result JsVal) :=
  (modify (add_sent r) ;;;
   match net r with
   | Rejects msg => throw msg
   | Responds ok _ _ json => ret (ok, json)
   end)%js.

(** [syncToBackend]; [now] and [later] are the two readings of the clock,
    [new Date().toISOString()] for the body and [new Date()] for
    [lastSyncTime]. The success log prints [result.count] in a template
    literal: the read throws on a [null] body and the conversion to a string
    can throw, both after the two state writes and before the timeout is
    set. The failure log reads [error.error], which throws on a [null]
    body. *)
Definition syncToBackend (net : Network) (now later : string) : M App unit :=
  (modify (setSyncStatus syncing) ;;;
   try_catch
     (els <- gets elements ;;
      response <- client_fetch net
        (mkRequest "/api/elements/sync" "POST"
           (JObj [("elements", JArr (map JObj (backendElements els)));
                  ("timestamp", JStr now)])) ;;
      if fst response then
        result <- liftR (snd response) ;;
        modify (setSyncStatus success) ;;;
        modify (setLastSyncTime later) ;;;
        count <- liftR (getPropE result "count") ;;
        _ <- liftR (toStr numberToString count) ;;
        modify (setTimeout idle 2000)
      else
        err <- liftR (snd response) ;;
        modify (setSyncStatus error) ;;;
        _ <- liftR (getPropE err "error") ;;
        ret tt)
     (fun _ => modify (setSyncStatus error)))%js.

End Client.

(** What [element.texts?.map(...)] comes to, read off the code without the
    client state, which building a text never touches. *)
Section Texts.

Variable buildText : JsVal -> JsVal -> Result JsVal.
Variable codeUnits : string -> list JsVal.

(** The value the callback returns for one item of [texts]. *)
Definition builtArrowLineText (arrowLine : JsVal) : Result JsVal :=
  match getPropE arrowLine "text" with
  | Ok text =>
      match buildText (js_or text (JStr "")) JUndefined with
      | Ok built => Ok (JObj (setProp "text" built (spread codeUnits arrowLine)))
      | Throw e => Throw e
      end
  | Throw e => Throw e
  end.

(** [texts?.map(...)]: [undefined] when [texts] is [undefined] or [null],
    the built items of an array, a [TypeError] on anything else. *)
Definition builtTexts (texts : JsVal) : Result JsVal :=
  match texts with
  | JUndefined | JNull => Ok JUndefined
  | JArr items =>
      match sequenceR (map builtArrowLineText items) with
      | Ok ts => Ok (JArr ts)
      | Throw e => Throw e
      end
  | _ => Throw "element.texts?.map is not a function"
  end.

End Texts.

(* ===================================================================== *)
(** ** The Tool Bridge (MCP server) *)
(* ===================================================================== *)

(** The two environment variables the bridge reads. *)
Record Config : Type := mkConfig {
  env_EXPRESS_SERVER_URL : option string;
  env_ENABLE_CANVAS_SYNC : option string
}.

(** [process.env.EXPRESS_SERVER_URL || "http://localhost:3000"]. *)
Definition EXPRESS_SERVER_URL (cfg : Config) : string :=
  match env_EXPRESS_SERVER_URL cfg with
  | Some u => if (u =? "") then "http://localhost:3000" else u
  | None => "http://localhost:3000"
  end.

(** [process.env.ENABLE_CANVAS_SYNC !== "false"]. *)
Definition ENABLE_CANVAS_SYNC (cfg : Config) : bool :=
  match env_ENABLE_CANVAS_SYNC cfg with
  | Some v => negb (v =? "false")
  | None => true
  end.

(** The bridge's state: the [fetch] calls made so far, oldest first. *)
Definition Calls : Type := list Request.

(** A line feed, [\n] in the source's template literals. *)
Definition nl : string := String (ascii_of_nat 10) EmptyString.

(** A piece of a template literal: fixed text, or [JSON.stringify(v, null,
    2)] of a value, left unexpanded. *)
Inductive TextPart : Type :=
| Lit (s : string)
| Stringify (v : JsVal).

(** What the handler returns: the single text item of [content], and
    [isError] ([false] when the property is left out). *)
Record ToolResult : Type := mkToolResult {
  content_text : list TextPart;
  isError : bool
}.

(** [fetch(url, options)] followed by the [response.ok] test and
    [response.json()]. *)
Definition bridge_fetch (net : Network) (r : Request) : M Calls JsVal :=
  (modify (fun calls : Calls => (calls ++ [r])%list) ;;;
   match net r with
   | Rejects msg => throw msg
   | Responds ok status statusText json =>
       if negb ok then
         throw ("Canvas sync failed: " ++ decimal status ++ " " ++ statusText)
       else liftR json
   end)%js.

(** [syncToCanvas]: [JNull] when sync is switched off, when the operation is
    not ["create"], and when anything inside the [try] throws. *)
Definition syncToCanvas (cfg : Config) (net : Network)
           (operation : string) (data : JsVal) : M Calls JsVal :=
  if negb (ENABLE_CANVAS_SYNC cfg) then ret JNull
  else
    try_catch
      (if (operation =? "create") then
         bridge_fetch net
           (mkRequest (EXPRESS_SERVER_URL cfg ++ "/api/elements") "POST" data)
       else ret JNull)
      (fun _ => ret JNull).

(** [result?.element]. *)
Definition optElement (result : JsVal) : JsVal :=
  match result with
  | JUndefined | JNull => JUndefined
  | _ => getProp result "element"
  end.

(** [createElementOnCanvas]. *)
Definition createElementOnCanvas (cfg : Config) (net : Network)
           (elementData : JsVal) : M Calls JsVal :=
  (result <- syncToCanvas cfg net "create" elementData ;;
   ret (js_or (optElement result) elementData))%js.

(** The three creation tools. *)
Definition isCreationTool (name : string) : bool :=
  (name =? "create_geometry_element")
  || (name =? "create_arrow_line_element")
  || (name =? "create_freehand_element").

(** The value returned when the element was created. *)
Definition successResult (canvasElement : JsVal) : ToolResult :=
  mkToolResult
    [Lit ("Element created successfully!" ++ nl ++ nl);
     Stringify canvasElement;
     Lit (nl ++ nl ++ "✅ Synced to canvas")]
    false.

(** The value returned from the handler's [catch]. *)
Definition errorResult (message : string) : ToolResult :=
  mkToolResult [Lit ("Error: " ++ message)] true.

(** The body of the handler's [try]. *)
Definition callTool (cfg : Config) (net : Network)
           (name : string) (args : JsVal) : M Calls ToolResult :=
  if isCreationTool name then
    (let params := args in
     id <- liftR (getPropE params "id") ;;
     if negb (truthy id) then
       throw "Failed to create element: id is required"
     else if (name =? "create_arrow_line_element")
             && negb (strictEqStr (getProp params "type") "arrow-line") then
       throw "Failed to create element: type must be arrow-line"
     else if (name =? "create_freehand_element")
             && negb (strictEqStr (getProp params "type") "freehand") then
       throw "Failed to create element: type must be freehand"
     else if (name =? "create_geometry_element")
             && negb (strictEqStr (getProp params "type") "geometry") then
       throw "Failed to create element: type must be geometry"
     else
       canvasElement <- createElementOnCanvas cfg net params ;;
       if negb (truthy canvasElement) then
         throw "Failed to create element: HTTP server unavailable"
       else
         ret (successResult canvasElement))%js
  else throw ("Unknown tool: " ++ name).

(** The [CallToolRequestSchema] handler: [name] and [args] are
    [request.params.name] and [request.params.arguments]. *)
Definition handleCallTool (cfg : Config) (net : Network)
           (name : string) (args : JsVal) : M Calls ToolResult :=
  try_catch (callTool cfg net name args)
            (fun message => ret (errorResult message)).

(** The request [syncToCanvas("create", data)] sends. *)
Definition createRequest (cfg : Config) (data : JsVal) : Request :=
  mkRequest (EXPRESS_SERVER_URL cfg ++ "/api/elements") "POST" data.

(** The repository endpoint is unreachable: [fetch] throws, or the response
    is not ok. *)
Definition unreachable (o : FetchOutcome) : bool :=
  match o with
  | Rejects _ => true
  | Responds ok _ _ _ => negb ok
  end.

(** The [type] each creation tool asks for. *)
Definition expectedType (name : string) : string :=
  if (name =? "create_arrow_line_element") then "arrow-line"
  else if (name =? "create_freehand_element") then "freehand"
  else "geometry".

(** A well-formed creation request: a creation tool, an [id], and the
    [type] of that tool; what the handler checks before it calls out. *)
Definition wellFormedRequest (name : string) (args : JsVal) : bool :=
  isCreationTool name
  && truthy (getProp args "id")
  && strictEqStr (getProp args "type") (expectedType name).

(** The error of the handler's null check on [canvasElement]. *)
Definition unavailableResult : ToolResult :=
  errorResult "Failed to create element: HTTP server unavailable".

(* ===================================================================== *)
(** ** Sample data: the scenario of the specification *)
(* ===================================================================== *)

Definition num (z : Z) : JsVal := JNum (inject_Z z).
Definition half : JsVal := JNum (1 # 2).
Definition point (x y : Z) : JsVal := JArr [num x; num y].

(** The rectangle [g1]. *)
Definition g1 : Obj :=
  [("id", JStr "g1"); ("type", JStr "geometry"); ("shape", JStr "rectangle");
   ("points", JArr [point 0 0; point 10 10]); ("text", JStr "A")].

(** The arrow [a1], whose source is bound to [g1]. *)
Definition a1 : Obj :=
  [("id", JStr "a1"); ("type", JStr "arrow-line"); ("shape", JStr "straight");
   ("points", JArr [point 10 5; point 50 5]);
   ("source", JObj [("boundId", JStr "g1");
                    ("connection", JArr [num 1; half]);
                    ("marker", JStr "none")]);
   ("target", JObj [("marker", JStr "arrow")])].

(** A binding entry [{id, type}]. *)
Definition binding (id type : string) : JsVal :=
  JObj [("id", JStr id); ("type", JStr type)].

(** A label [t1] contained in [g1]. *)
Definition t1 : Obj :=
  [("id", JStr "t1"); ("type", JStr "geometry"); ("shape", JStr "text");
   ("containerId", JStr "g1")].

(** [g1] carrying three bindings: a live label, a stale arrow and a video. *)
Definition g1_bound : Obj :=
  (g1 ++ [("boundElements",
           JArr [binding "t1" "text"; binding "gone" "arrow";
                 binding "t1" "video"])])%list.

(** The scenario after [g1] is deleted: [t1] still names it as container and
    [a1] still names it as the source's bound element. *)
Definition batch_g1_deleted : list Obj := [t1; a1].

(** The scenario with [g1] carrying its three bindings. *)
Definition batch_bound : list Obj := [g1_bound; t1; a1].

(** A shape whose only binding is stale. *)
Definition g2_stale : Obj :=
  [("id", JStr "g2"); ("type", JStr "geometry"); ("shape", JStr "ellipse");
   ("boundElements", JArr [binding "gone" "text"])].

(** A shape whose [containerId] is the empty string. *)
Definition g3_blank : Obj :=
  [("id", JStr "g3"); ("type", JStr "geometry"); ("shape", JStr "diamond");
   ("containerId", JStr "")].

(** The default configuration: sync on, repository on localhost. *)
Definition cfg_default : Config := mkConfig None None.

(** Sync switched off with [ENABLE_CANVAS_SYNC=false]. *)
Definition cfg_sync_off : Config := mkConfig None (Some "false").

(** A repository that refuses the connection. *)
Definition net_down : Network :=
  fun _ => Rejects "request to http://localhost:3000/api/elements failed".

(** A repository that answers 503. *)
Definition net_503 : Network :=
  fun _ => Responds false 503 "Service Unavailable" (Throw "Unexpected token").

(** A stand-in for the engine's indexing of strings, for the examples: one
    code unit per character of the model, which is what the engine does on
    ASCII strings. *)
Fixpoint sample_codeUnits (s : string) : list JsVal :=
  match s with
  | EmptyString => []
  | String c r => JStr (String c EmptyString) :: sample_codeUnits r
  end.

(** A repository that stores the element and stamps [version]. *)
Definition net_up : Network :=
  fun r => Responds true 200 "OK"
             (Ok (JObj [("success", JBool true);
                        ("element",
                         JObj (setProp "version" (num 1)
                                       (spread sample_codeUnits (req_body r))))])).

(** Stand-ins for the drawing toolkit, to run the client on examples: ids
    [el0], [el1], ... and a text node holding the text and its alignment. *)
Definition sample_idCreator (n : nat) : string :=
  "el" ++ NilZero.string_of_uint (Nat.to_uint n).

Definition sample_buildText (text align : JsVal) : Result JsVal :=
  Ok (JObj [("children", JArr [JObj [("text", text)]]); ("align", align)]).

(** A client whose board is ready and empty. *)
Definition app0 : App := mkApp (Some []) [] 0 idle None [] [].

(** A pushed rectangle whose binding and container name no element. *)
Definition pushed : Obj :=
  [("id", JStr "p1"); ("type", JStr "geometry"); ("shape", JStr "rectangle");
   ("points", JArr [point 0 0; point 10 10]); ("text", JStr "B");
   ("boundElements", JArr [binding "gone" "text"]);
   ("containerId", JStr "gone")].

(** What [convertPlaitElement] makes of [pushed] with the stand-ins. *)
Definition pushed_converted : Obj :=
  [("id", JStr "el0"); ("type", JStr "geometry"); ("shape", JStr "rectangle");
   ("points", JArr [point 0 0; point 10 10]);
   ("text", JObj [("children", JArr [JObj [("text", JStr "B")]]);
                  ("align", JStr "center")]);
   ("boundElements", JArr [binding "gone" "text"]);
   ("containerId", JStr "gone")].

(** A push message. *)
Definition message (type : string) (fields : Obj) : JsVal :=
  JObj (("type", JStr type) :: fields).

(** [g1] as the repository returns it, with its bookkeeping fields. *)
Definition g1_stored : Obj :=
  (g1 ++ [("createdAt", JStr "2025-01-01T00:00:00.000Z");
          ("updatedAt", JStr "2025-01-01T00:00:00.000Z");
          ("version", num 1)])%list.

(** [t1] marked as deleted by the UI. *)
Definition t1_deleted : Obj := (t1 ++ [("isDeleted", JBool true)])%list.

(** A client state whose [elements] hold [g1_stored] and the deleted [t1].
    No run of the client gets there (see [emptyUploads]); it shows what the
    handlers do to an [elements] state they are given. *)
Definition app_local : App :=
  mkApp (Some []) [g1_stored; t1_deleted] 0 idle None [] [].

(* ===================================================================== *)
(** ** Batches the validator leaves alone *)
(* ===================================================================== *)

(** A binding the filter keeps, read against the ids of the batch: an
    object with a truthy [id] that is the id of an element and a [type] that
    is ["text"] or ["arrow"]. *)
Definition validBinding (batch : list Obj) (b : JsVal) : bool :=
  truthy b && typeof_object b
  && truthy (getProp b "id") && truthy (getProp b "type")
  && present batch (getProp b "id") && bindingType (getProp b "type").

(** An element with nothing to repair in the batch: [boundElements] is
    falsy or a non-empty array of valid bindings, and [containerId] is falsy
    or the id of an element. *)
Definition soundElement (batch : list Obj) (e : Obj) : bool :=
  (match lookup "boundElements" e with
   | JArr bs => negb (List.length bs =? 0)%nat && forallb (validBinding batch) bs
   | v => negb (truthy v)
   end)
  && (negb (truthy (lookup "containerId" e))
      || present batch (lookup "containerId" e)).

(** A batch with nothing to repair. *)
Definition soundBatch (batch : list Obj) : bool :=
  forallb (soundElement batch) batch.

(** [g1] bound to its label [t1], and [t1] contained in [g1]. *)
Definition g1_labelled : Obj :=
  (g1 ++ [("boundElements", JArr [binding "t1" "text"])])%list.

Definition batch_sound : list Obj := [g1_labelled; t1; a1].

(* ===================================================================== *)
(** ** A client receiving a run of push messages *)
(* ===================================================================== *)

(** The client after the messages of [msgs], handled one after the other. *)
Definition receive (idCreator : nat -> string)
           (buildText : JsVal -> JsVal -> Result JsVal)
           (codeUnits : string -> list JsVal)
           (msgs : list JsVal) (a : App) : App :=
  fold_left (fun a data =>
               snd (handleWebSocketMessage idCreator buildText codeUnits data a))
            msgs a.

(** The ids of the children of the board that are objects. *)
Definition childIds (children : list JsVal) : list JsVal :=
  flat_map (fun c => match c with JObj o => [lookup "id" o] | _ => [] end)
           children.

(** What holds of the board all along a run that starts at id count [n0]:
    the ids of its children are toolkit ids, drawn at distinct counts
    between [n0] and the current count. *)
Definition drawnIds (idCreator : nat -> string) (n0 : nat) (a : App) : Prop :=
  exists cs ks,
    board a = Some cs
    /\ childIds cs = map (fun k => JStr (idCreator k)) ks
    /\ NoDup ks
    /\ (n0 <= idCount a)%nat
    /\ forall k, In k ks -> (n0 <= k < idCount a)%nat.

(** A freehand stroke. *)
Definition f1 : Obj :=
  [("id", JStr "f1"); ("type", JStr "freehand"); ("shape", JStr "feltTipPen");
   ("points", JArr [point 0 0; point 3 4; point 6 2])].

(* ===================================================================== *)
(** ** String conversion, [validateElement] and [clearCanvas] *)
(* ===================================================================== *)

(** [Object.values(PLAIT_ELEMENT_TYPES)]. *)
Definition PLAIT_ELEMENT_TYPES : list (string * JsVal) :=
  [("GEOMETRY", JStr "geometry"); ("ARROW_LINE", JStr "arrow-line");
   ("FREEHAND", JStr "freehand")].

(** A [fetch] promise that rejects. *)
Definition rejects (o : FetchOutcome) : bool :=
  match o with Rejects _ => true | Responds _ _ _ _ => false end.

Section Interpolation.

(** The engine's [Number.prototype.toString], outside the repository. *)
Variable numberToString : Q -> string.

(** [validateElement]: both required fields must be properties of the
    element, and [type] one of the three element types. *)
Definition validateElement (element : Obj) : Result bool :=
  let requiredFields := ["type"; "shape"] in
  let hasRequiredFields :=
    forallb (fun field => hasProp field element) requiredFields in
  if negb hasRequiredFields then
    Throw ("Missing required fields: " ++ String.concat ", " requiredFields)
  else if negb (includes (map snd PLAIT_ELEMENT_TYPES) (lookup "type" element))
  then
    match toStr numberToString (lookup "type" element) with
    | Ok type => Throw ("Invalid element type: " ++ type)
    | Throw e => Throw e
    end
  else Ok true.

(** The callback of [result.elements.map] in [clearCanvas]: the DELETE is
    sent at once, its promise is what the callback returns. *)
Definition deleteElement (net : Network) (element : JsVal)
  : M App FetchOutcome :=
  (id <- liftR (getPropE element "id") ;;
   path <- liftR (toStr numberToString id) ;;
   modify (add_sent (mkRequest ("/api/elements/" ++ path) "DELETE" JUndefined)) ;;;
   ret (net (mkRequest ("/api/elements/" ++ path) "DELETE" JUndefined)))%js.

(** [clearCanvas]: the element list is fetched (the status of the response
    is not looked at) and one DELETE is sent per element; [Promise.all]
    throws when a DELETE rejects. Whatever is thrown is logged and
    dropped. Nothing follows the comment that announces the clearing of the
    frontend canvas. *)
Definition clearCanvas (net : Network) : M App unit :=
  try_catch
    (response <- client_fetch net (mkRequest "/api/elements" "GET" JUndefined) ;;
     result <- liftR (snd response) ;;
     success <- liftR (getPropE result "success") ;;
     if truthy success && truthy (getProp result "elements") then
       deletePromises <-
         match getProp result "elements" with
         | JArr items => mapM (deleteElement net) items
         | _ => throw "result.elements.map is not a function"
         end ;;
       if existsb rejects deletePromises
       then throw "fetch failed"
       else ret tt
     else ret tt)%js
    (fun _ => ret tt).

End Interpolation.

(* ===================================================================== *)
(** ** The client from mount on *)
(* ===================================================================== *)

(** What happens to a mounted client. The toolkit hands over the board
    ([afterInit]) or the user edits it, drawing [drawn] ids on the way: the
    children of the board are what the toolkit says, and nothing else
    changes, since the [onChange] the wrapper passes down does nothing. A
    push message arrives. The user clicks one of the two buttons. The
    oldest pending timeout runs. *)
Inductive Action : Type :=
| BoardChanges (children : list JsVal) (drawn : nat)
| Receives (data : JsVal)
| ClicksSync (net : Network) (now later : string)
| ClicksClear (net : Network)
| TimeoutRuns.

Section Run.

Variable idCreator : nat -> string.
Variable buildText : JsVal -> JsVal -> Result JsVal.
Variable numberToString : Q -> string.
Variable codeUnits : string -> list JsVal.

(** One action. The two click handlers are run to their end; the request
    body of [syncToBackend] is built before its first [await]. *)
Definition act (ac : Action) (a : App) : App :=
  match ac with
  | BoardChanges children drawn =>
      set_board (Some children) (set_idCount (idCount a + drawn) a)
  | Receives data =>
      snd (handleWebSocketMessage idCreator buildText codeUnits data a)
  | ClicksSync net now later =>
      snd (syncToBackend numberToString net now later a)
  | ClicksClear net => snd (clearCanvas numberToString net a)
  | TimeoutRuns => runTimeout a
  end.

(** The client after the actions of [acts], one after the other. *)
Definition run (acts : list Action) (a : App) : App :=
  fold_left (fun a ac => act ac a) acts a.

End Run.

(** The client as [App] mounts it: no board yet, [elements] at the initial
    value [[]] of its [useState], no sync made; the toolkit has handed out
    [n] ids. *)
Definition mounted (n : nat) : App := mkApp None [] n idle None [] [].

(** The upload of [syncToBackend]. *)
Definition isUpload (r : Request) : bool :=
  (req_url r =? "/api/elements/sync") && (req_method r =? "POST").

(** What holds of the client all along: the [elements] state is empty, and
    every upload sent so far had an empty element list. *)
Definition emptyUploads (a : App) : Prop :=
  elements a = []
  /\ forall r, In r (sent a) -> isUpload r = true ->
       exists now,
         req_body r = JObj [("elements", JArr []); ("timestamp", JStr now)].

(** A stand-in for the engine's printing of numbers, for the examples:
    integers in decimal, anything else as ["NaN"]. *)
Definition sample_numberToString (q : Q) : string :=
  match q with
  | Qmake (Zpos p) 1 => NilZero.string_of_uint (Pos.to_uint p)
  | Qmake Z0 1 => "0"
  | _ => "NaN"
  end.

(** A repository that lists [g1] and [t1] and accepts every DELETE. *)
Definition net_listing : Network :=
  fun r =>
    if (req_method r =? "GET") then
      Responds true 200 "OK"
        (Ok (JObj [("success", JBool true);
                   ("elements", JArr [JObj g1_stored; JObj t1]);
                   ("count", num 2)]))
    else Responds true 200 "OK" (Ok (JObj [("success", JBool true)])).

(** The client after the requests [rs] were sent, one after the other. *)
Definition sendAll (rs : list Request) (a : App) : App :=
  fold_left (fun a r => add_sent r a) rs a.

(** The DELETE request for the element with id [id]. *)
Definition deleteRequest (id : string) : Request :=
  mkRequest ("/api/elements/" ++ id) "DELETE" JUndefined.

(** What a request sent by [deleteElement] looks like. *)
Definition isDelete (r : Request) : Prop :=
  req_method r = "DELETE" /\ req_body r = JUndefined
  /\ exists path, req_url r = "/api/elements/" ++ path.

(* ===================================================================== *)
(** ** The connection supervisor (App.tsx) *)
(* ===================================================================== *)

(** [WebSocket.readyState]. *)
Inductive ReadyState : Type := CONNECTING | OPEN | CLOSING | CLOSED.

(** [window.location]. *)
Record Location : Type := mkLocation {
  loc_protocol : string;
  loc_host : string
}.

(** The sockets the client has created, oldest first, each with its URL and
    state; the one [websocketRef.current] points to; the [isConnected]
    state; the delays of the timeouts that are pending. *)
Record Conn : Type := mkConn {
  sockets : list (string * ReadyState);
  websocketRef : option nat;
  isConnected : bool;
  timers : list N
}.

(** The state before the component mounts. *)
Definition conn0 : Conn := mkConn [] None false [].

(** [wsUrl]. *)
Definition wsUrl (loc : Location) : string :=
  (if (loc_protocol loc =? "https:") then "wss:" else "ws:")
  ++ "//" ++ loc_host loc.

(** [connectWebSocket]: nothing when the current socket is open; otherwise
    a new socket is created and becomes the current one. *)
Definition connectWebSocket (loc : Location) (c : Conn) : Conn :=
  let create :=
    mkConn (sockets c ++ [(wsUrl loc, CONNECTING)])%list
           (Some (List.length (sockets c))) (isConnected c) (timers c) in
  match websocketRef c with
  | Some i =>
      match nth_error (sockets c) i with
      | Some (_, OPEN) => c
      | _ => create
      end
  | None => create
  end.

(** [onopen]. *)
Definition onopen (c : Conn) : Conn :=
  mkConn (sockets c) (websocketRef c) true (timers c).

(** [onclose]: a close that is not clean (code 1000) schedules
    [connectWebSocket] in 3000 ms. *)
Definition onclose (code : N) (c : Conn) : Conn :=
  mkConn (sockets c) (websocketRef c) false
         (if negb (code =? 1000)%N then (timers c ++ [3000%N])%list
          else timers c).

(** [onerror]. *)
Definition onerror (c : Conn) : Conn :=
  mkConn (sockets c) (websocketRef c) false (timers c).

(** The browser moves socket [i] to the state [st]. *)
Fixpoint setReadyState (i : nat) (st : ReadyState)
         (l : list (string * ReadyState)) : list (string * ReadyState) :=
  match l, i with
  | [], _ => []
  | (u, _) :: r, O => (u, st) :: r
  | x :: r, S j => x :: setReadyState j st r
  end.

(** What the browser does to the client during the life of the component:
    a connecting socket opens, a socket that is not closed reports an error
    or closes with a code, a pending timeout fires. *)
Inductive Event : Type :=
| SocketOpened (i : nat)
| SocketError (i : nat)
| SocketClosed (i : nat) (code : N)
| TimerFired.

(** The client after one event; [None] when the browser cannot deliver it
    in this state. *)
Definition deliver (loc : Location) (ev : Event) (c : Conn) : option Conn :=
  match ev with
  | SocketOpened i =>
      match nth_error (sockets c) i with
      | Some (_, CONNECTING) =>
          Some (onopen (mkConn (setReadyState i OPEN (sockets c))
                               (websocketRef c) (isConnected c) (timers c)))
      | _ => None
      end
  | SocketError i =>
      match nth_error (sockets c) i with
      | Some (_, CONNECTING) | Some (_, OPEN) => Some (onerror c)
      | _ => None
      end
  | SocketClosed i code =>
      match nth_error (sockets c) i with
      | None | Some (_, CLOSED) => None
      | Some _ =>
          Some (onclose code (mkConn (setReadyState i CLOSED (sockets c))
                                     (websocketRef c) (isConnected c)
                                     (timers c)))
      end
  | TimerFired =>
      match timers c with
      | _ :: rest =>
          Some (connectWebSocket loc
                  (mkConn (sockets c) (websocketRef c) (isConnected c) rest))
      | [] => None
      end
  end.

(** The client after the events of [evs], from the state [c]. *)
Fixpoint deliverAll (loc : Location) (evs : list Event) (c : Conn)
  : option Conn :=
  match evs with
  | [] => Some c
  | ev :: evs' =>
      match deliver loc ev c with
      | Some c' => deliverAll loc evs' c'
      | None => None
      end
  end.

(** The sockets that are not closed. *)
Definition live (l : list (string * ReadyState)) : nat :=
  List.length (filter (fun s => match snd s with CLOSED => false | _ => true end)
                      l).

(** One connection attempt at a time: the sockets that are not closed and
    the pending reconnects are at most one together; a socket that is not
    closed is the current one; and [isConnected] is set only while the
    current socket is open. *)
Definition supervised (c : Conn) : Prop :=
  (live (sockets c) + List.length (timers c) <= 1)%nat
  /\ (forall i u st,
        nth_error (sockets c) i = Some (u, st) -> st <> CLOSED ->
        websocketRef c = Some i)
  /\ (isConnected c = true ->
      exists i u, websocketRef c = Some i
                  /\ nth_error (sockets c) i = Some (u, OPEN)).

(** The page the examples are served from. *)
Definition loc_local : Location := mkLocation "http:" "localhost:3000".

(* ===================================================================== *)
(** ** The server with two tools *)
(* ===================================================================== *)

(** The success value of the server file that has the geometry and the
    arrow-line tool only; the mark in its text is stored mis-encoded. *)
Definition successResult_twoTools (canvasElement : JsVal) : ToolResult :=
  mkToolResult
    [Lit ("Element created successfully!" ++ nl ++ nl);
     Stringify canvasElement;
     Lit (nl ++ nl ++ "âœ… Synced to canvas")]
    false.

(** The body of the [try] of that file's handler: no [id] is asked for,
    and [type] is checked for the arrow-line tool only. [params.type] is
    read for the log before the element is created. *)
Definition callTool_twoTools (cfg : Config) (net : Network)
           (name : string) (args : JsVal) : M Calls ToolResult :=
  if (name =? "create_geometry_element")
     || (name =? "create_arrow_line_element") then
    (let params := args in
     (if (name =? "create_arrow_line_element") then
        type <- liftR (getPropE params "type") ;;
        if negb (strictEqStr type "arrow-line")
        then throw "Failed to create element: type must be arrow-line"
        else ret tt
      else ret tt) ;;;
     _ <- liftR (getPropE params "type") ;;
     canvasElement <- createElementOnCanvas cfg net params ;;
     if negb (truthy canvasElement) then
       throw "Failed to create element: HTTP server unavailable"
     else ret (successResult_twoTools canvasElement))%js
  else throw ("Unknown tool: " ++ name).

(** That file's [CallToolRequestSchema] handler. *)
Definition handleCallTool_twoTools (cfg : Config) (net : Network)
           (name : string) (args : JsVal) : M Calls ToolResult :=
  try_catch (callTool_twoTools cfg net name args)
            (fun message => ret (errorResult message)).

(* ===================================================================== *)
(** * Properties *)
(* ===================================================================== *)

(** ** Objects: reading after writing *)

Section ObjectFacts.

Implicit Types (k : string) (v : JsVal) (o : Obj).

Lemma lookup_setProp_eq k v o : lookup k (setProp k v o) = v.
Proof.
  induction o as [|[k' v'] o IH]; simpl.
  - now rewrite String.eqb_refl.
  - destruct (k' =? k) eqn:E; simpl; rewrite E; auto.
Qed.

Lemma lookup_setProp_neq k k' v o :
  k <> k' -> lookup k' (setProp k v o) = lookup k' o.
Proof.
  intros Hne. induction o as [|[k0 v0] o IH]; simpl.
  - apply String.eqb_neq in Hne. now rewrite Hne.
  - destruct (k0 =? k) eqn:E; simpl.
    + apply String.eqb_eq in E; subst k0.
      apply String.eqb_neq in Hne. now rewrite Hne.
    + destruct (k0 =? k'); auto.
Qed.

Lemma setProp_setProp k v v' o :
  setProp k v (setProp k v' o) = setProp k v o.
Proof.
  induction o as [|[k0 v0] o IH]; simpl.
  - now rewrite String.eqb_refl.
  - destruct (k0 =? k) eqn:E; simpl; rewrite E; [reflexivity | now f_equal].
Qed.

(** A property that reads as something other than [undefined] is there. *)
Lemma lookup_hasProp k o : lookup k o <> JUndefined -> hasProp k o = true.
Proof.
  induction o as [|[k0 v0] o IH]; simpl; [congruence|].
  destruct (k0 =? k); simpl; auto.
Qed.

Lemma truthy_hasProp k o : truthy (lookup k o) = true -> hasProp k o = true.
Proof.
  intros H. apply lookup_hasProp. intros E. now rewrite E in H.
Qed.

(** Writing back what is there changes nothing. *)
Lemma setProp_same k o :
  hasProp k o = true -> setProp k (lookup k o) o = o.
Proof.
  induction o as [|[k0 v0] o IH]; simpl; [discriminate|].
  destruct (k0 =? k) eqn:E; simpl; [reflexivity|].
  intros H. now rewrite IH.
Qed.

Lemma setProp_same_val k v o :
  lookup k o = v -> truthy v = true -> setProp k v o = o.
Proof.
  intros <- Ht. apply setProp_same. now apply truthy_hasProp.
Qed.

(** Writing keeps the set of property names when the name is there. *)
Lemma map_fst_setProp k v o :
  hasProp k o = true -> map fst (setProp k v o) = map fst o.
Proof.
  induction o as [|[k0 v0] o IH]; simpl; [discriminate|].
  destruct (k0 =? k) eqn:E; simpl; [reflexivity|].
  intros H. now rewrite IH.
Qed.

End ObjectFacts.

(** ** [Map]: which keys are found *)

Section MapFacts.

Lemma sameValueZero_sym a b : sameValueZero a b = sameValueZero b a.
Proof.
  destruct a, b; simpl; auto.
  - now destruct b, b0.
  - destruct (Qeq_bool q q0) eqn:E, (Qeq_bool q0 q) eqn:E'; auto.
    + apply Qeq_bool_iff in E. symmetry in E.
      apply Qeq_bool_iff in E. congruence.
    + apply Qeq_bool_iff in E'. symmetry in E'.
      apply Qeq_bool_iff in E'. congruence.
  - apply String.eqb_sym.
Qed.

Lemma sameValueZero_trans a b c :
  sameValueZero a b = true -> sameValueZero b c = true ->
  sameValueZero a c = true.
Proof.
  destruct a, b, c; simpl; try congruence.
  - destruct b, b0, b1; simpl; congruence.
  - intros H1 H2. apply Qeq_bool_iff in H1, H2. apply Qeq_bool_iff.
    now rewrite H1.
  - intros H1 H2. apply String.eqb_eq in H1, H2. subst.
    apply String.eqb_refl.
Qed.

(** Keys that are the same key find the same entries. *)
Lemma sameValueZero_congr a b c :
  sameValueZero a b = true -> sameValueZero a c = sameValueZero b c.
Proof.
  intros H. destruct (sameValueZero b c) eqn:E.
  - eapply sameValueZero_trans; eauto.
  - destruct (sameValueZero a c) eqn:E'; auto.
    rewrite sameValueZero_sym in H.
    rewrite (sameValueZero_trans _ _ _ H E') in E. discriminate.
Qed.

Context {V : Type}.

Lemma Map_has_cons k' v (m : JsMap V) k :
  Map_has ((k', v) :: m) k = sameValueZero k' k || Map_has m k.
Proof.
  unfold Map_has; simpl. now destruct (sameValueZero k' k).
Qed.

Lemma Map_has_set (m : JsMap V) k v k' :
  Map_has (Map_set m k v) k' = Map_has m k' || sameValueZero k k'.
Proof.
  induction m as [|[k0 v0] m IH]; simpl.
  - rewrite Map_has_cons. unfold Map_has; simpl. apply orb_comm.
  - destruct (sameValueZero k0 k) eqn:E.
    + rewrite !Map_has_cons.
      rewrite <- (sameValueZero_congr _ _ k' E).
      destruct (sameValueZero k0 k'); simpl; auto. now rewrite orb_false_r.
    + rewrite !Map_has_cons, IH. now rewrite orb_assoc.
Qed.

Lemma Map_has_fold (es : list (JsVal * V)) (m : JsMap V) k :
  Map_has (fold_left (fun m e => Map_set m (fst e) (snd e)) es m) k
  = Map_has m k || existsb (fun e => sameValueZero (fst e) k) es.
Proof.
  revert m. induction es as [|e es IH]; intros m; simpl.
  - now rewrite orb_false_r.
  - rewrite IH, Map_has_set. now rewrite orb_assoc.
Qed.

(** A key is found in [new Map(entries)] exactly when an entry has it. *)
Lemma Map_has_of (es : list (JsVal * V)) k :
  Map_has (Map_of es) k = existsb (fun e => sameValueZero (fst e) k) es.
Proof.
  unfold Map_of. now rewrite Map_has_fold.
Qed.

End MapFacts.

(** ** The Binding Validator *)

Section ValidatorFacts.

Implicit Types (m : JsMap Obj) (e x : Obj) (B : list Obj).

Lemma filter_idem {A : Type} (f : A -> bool) (l : list A) :
  filter f (filter f l) = filter f l.
Proof.
  induction l as [|a l IH]; simpl; auto.
  destruct (f a) eqn:E; simpl; [rewrite E; now f_equal | assumption].
Qed.

(** The element map finds exactly the ids of the batch. *)
Lemma elementMapOf_has B k : Map_has (elementMapOf B) k = present B k.
Proof.
  unfold elementMapOf, present. rewrite Map_has_of.
  induction B as [|el B IH]; simpl; auto. now rewrite IH.
Qed.

(** The filter callback, read off as one conjunction. *)
Lemma bindingFilter_has m b :
  bindingFilter m b
  = truthy b && typeof_object b
    && truthy (getProp b "id") && truthy (getProp b "type")
    && Map_has m (getProp b "id") && bindingType (getProp b "type").
Proof.
  unfold bindingFilter, Map_has, bindingType.
  destruct (truthy b), (typeof_object b); cbn [negb orb andb]; auto.
  destruct (truthy (getProp b "id")), (truthy (getProp b "type"));
    cbn [negb orb andb]; auto.
  destruct (Map_get m (getProp b "id")); cbn [negb orb andb]; auto.
  now destruct (includes _ (getProp b "type")).
Qed.

Lemma bindingFilter_ext m m' b :
  (forall k, Map_has m k = Map_has m' k) ->
  bindingFilter m b = bindingFilter m' b.
Proof. intros H. now rewrite !bindingFilter_has, H. Qed.

Lemma fixContainerId_has m x :
  fixContainerId m x
  = if truthy (lookup "containerId" x) && negb (Map_has m (lookup "containerId" x))
    then setProp "containerId" JNull x else x.
Proof.
  unfold fixContainerId, Map_has.
  destruct (truthy _); simpl; auto. now destruct (Map_get _ _).
Qed.

Lemma fixElement_ext m m' e :
  (forall k, Map_has m k = Map_has m' k) -> fixElement m e = fixElement m' e.
Proof.
  intros H. unfold fixElement.
  assert (Hb : fixBoundElements m e = fixBoundElements m' e).
  { unfold fixBoundElements. destruct (truthy _); auto.
    destruct (lookup "boundElements" e); auto.
    now rewrite (filter_ext _ _ (fun b => bindingFilter_ext m m' b H)). }
  rewrite Hb, !fixContainerId_has. now rewrite H.
Qed.

(** *** What each repair leaves alone *)

Lemma fixBoundElements_frame m e k :
  k <> "boundElements" ->
  lookup k (fixBoundElements m e) = lookup k e.
Proof.
  intros Hk. assert (Hk' : "boundElements" <> k) by congruence.
  unfold fixBoundElements. destruct (truthy _); auto.
  destruct (lookup "boundElements" e); rewrite ?lookup_setProp_neq; auto.
  destruct (_ =? _)%nat; rewrite ?lookup_setProp_neq; auto.
Qed.

Lemma fixContainerId_frame m e k :
  k <> "containerId" ->
  lookup k (fixContainerId m e) = lookup k e.
Proof.
  intros Hk. assert (Hk' : "containerId" <> k) by congruence.
  rewrite fixContainerId_has.
  destruct (_ && _); rewrite ?lookup_setProp_neq; auto.
Qed.

Lemma fixElement_frame m e k :
  k <> "boundElements" -> k <> "containerId" ->
  lookup k (fixElement m e) = lookup k e.
Proof.
  intros H1 H2. unfold fixElement.
  now rewrite fixContainerId_frame, fixBoundElements_frame.
Qed.

(** *** What each repair produces *)

(** [boundElements] after the repair, by cases on what it was. *)
Lemma fixBoundElements_result m e :
  lookup "boundElements" (fixBoundElements m e)
  = match lookup "boundElements" e with
    | JArr bs =>
        match filter (bindingFilter m) bs with
        | [] => JNull
        | kept => JArr kept
        end
    | v => if truthy v then JNull else v
    end.
Proof.
  unfold fixBoundElements.
  destruct (lookup "boundElements" e) as [| |b|q|s|bs|o] eqn:E;
    cbn [truthy]; rewrite ?E; try reflexivity.
  - destruct b; rewrite ?lookup_setProp_eq, ?E; reflexivity.
  - destruct (negb _); rewrite ?lookup_setProp_eq, ?E; reflexivity.
  - destruct (negb _); rewrite ?lookup_setProp_eq, ?E; reflexivity.
  - destruct (filter (bindingFilter m) bs) eqn:F; simpl;
      now rewrite !lookup_setProp_eq.
  - now rewrite lookup_setProp_eq.
Qed.

Lemma fixContainerId_result m e :
  lookup "containerId" (fixContainerId m e)
  = if truthy (lookup "containerId" e)
       && negb (Map_has m (lookup "containerId" e))
    then JNull else lookup "containerId" e.
Proof.
  rewrite fixContainerId_has.
  destruct (_ && _); auto. apply lookup_setProp_eq.
Qed.

Lemma fixElement_boundElements m e :
  lookup "boundElements" (fixElement m e)
  = lookup "boundElements" (fixBoundElements m e).
Proof. unfold fixElement. now rewrite fixContainerId_frame. Qed.

Lemma fixElement_containerId m e :
  lookup "containerId" (fixElement m e)
  = if truthy (lookup "containerId" e)
       && negb (Map_has m (lookup "containerId" e))
    then JNull else lookup "containerId" e.
Proof.
  unfold fixElement.
  now rewrite fixContainerId_result, fixBoundElements_frame.
Qed.

(** *** Elements the repairs do not change *)

Lemma fixBoundElements_fixed m x :
  truthy (lookup "boundElements" x) = false
  \/ (exists bs, lookup "boundElements" x = JArr bs /\ bs <> []
                 /\ filter (bindingFilter m) bs = bs) ->
  fixBoundElements m x = x.
Proof.
  unfold fixBoundElements. intros [H | (bs & E & Hne & F)].
  - now rewrite H.
  - rewrite E; simpl. rewrite F.
    rewrite (setProp_same_val _ _ _ E eq_refl).
    destruct bs; [congruence | reflexivity].
Qed.

Lemma fixContainerId_fixed m x :
  truthy (lookup "containerId" x) = false
  \/ Map_has m (lookup "containerId" x) = true ->
  fixContainerId m x = x.
Proof.
  rewrite fixContainerId_has. intros [H | H]; rewrite H; simpl; auto.
  now rewrite andb_false_r.
Qed.

Lemma fixElement_idem m e : fixElement m (fixElement m e) = fixElement m e.
Proof.
  unfold fixElement at 1.
  rewrite (fixBoundElements_fixed m (fixElement m e)).
  - apply fixContainerId_fixed.
    rewrite fixElement_containerId.
    destruct (truthy (lookup "containerId" e)) eqn:T; simpl; auto.
    destruct (Map_has m (lookup "containerId" e)) eqn:Hm; simpl; auto.
  - rewrite fixElement_boundElements, fixBoundElements_result.
    destruct (lookup "boundElements" e) as [| |b|q|s|bs|o] eqn:E;
      cbn [truthy]; auto.
    + destruct b; auto.
    + destruct (negb _) eqn:T; cbn [truthy]; auto.
    + destruct (negb _) eqn:T; cbn [truthy]; auto.
    + destruct (filter (bindingFilter m) bs) as [|b0 kept] eqn:F; auto.
      right. exists (b0 :: kept). rewrite <- F.
      repeat split; [rewrite F; discriminate | apply filter_idem].
Qed.

(** The validator keeps every element's id, hence the ids of the batch. *)
Lemma present_validateAndFixBindings B k :
  present (validateAndFixBindings B) k = present B k.
Proof.
  unfold validateAndFixBindings, present.
  generalize (elementMapOf B) as m. intros m.
  induction B as [|el B IH]; simpl; auto.
  rewrite IH, fixElement_frame; auto; discriminate.
Qed.

(** The output at an index is the repaired input at that index. *)
Lemma nth_error_validateAndFixBindings B i :
  nth_error (validateAndFixBindings B) i
  = option_map (fixElement (elementMapOf B)) (nth_error B i).
Proof. unfold validateAndFixBindings. apply nth_error_map. Qed.

End ValidatorFacts.

(** C2. Idempotence of repair: for every batch of elements, running the
    Binding Validator on its own output gives that output again. *)
Theorem validateAndFixBindings_idempotent (B : list Obj) :
  validateAndFixBindings (validateAndFixBindings B) = validateAndFixBindings B.
Proof.
  assert (H : forall k, Map_has (elementMapOf (validateAndFixBindings B)) k
                        = Map_has (elementMapOf B) k).
  { intros k. rewrite !elementMapOf_has.
    apply present_validateAndFixBindings. }
  unfold validateAndFixBindings at 1; cbv zeta.
  rewrite (map_ext _ _ (fun e => fixElement_ext _ _ e H)).
  unfold validateAndFixBindings. rewrite map_map.
  apply map_ext. intros e. apply fixElement_idem.
Qed.

(** C3, as amended. Referential soundness: in the output of the Binding
    Validator every entry of a [boundElements] array, and every truthy
    [containerId], has the id of an element of the output; an entry whose id
    names no element of the batch is not kept, and a truthy [containerId]
    that names no element of the batch is set to [null]. A truthy
    [containerId] that names an element stays as it is, and so does a falsy
    one, the empty string included: it is not looked at. *)
Theorem validateAndFixBindings_sound (B : list Obj) (i : nat) (e : Obj) :
  nth_error B i = Some e ->
  exists e',
    nth_error (validateAndFixBindings B) i = Some e'
    /\ (forall bs b, lookup "boundElements" e' = JArr bs -> In b bs ->
          present (validateAndFixBindings B) (getProp b "id") = true)
    /\ (truthy (lookup "containerId" e') = true ->
          present (validateAndFixBindings B) (lookup "containerId" e') = true)
    /\ (forall bs b, lookup "boundElements" e = JArr bs -> In b bs ->
          present B (getProp b "id") = false ->
          forall bs', lookup "boundElements" e' = JArr bs' -> ~ In b bs')
    /\ (truthy (lookup "containerId" e) = true ->
          present B (lookup "containerId" e) = false ->
          lookup "containerId" e' = JNull)
    /\ (truthy (lookup "containerId" e) = true ->
          present B (lookup "containerId" e) = true ->
          lookup "containerId" e' = lookup "containerId" e)
    /\ (truthy (lookup "containerId" e) = false ->
          lookup "containerId" e' = lookup "containerId" e).
Proof.
  intros He. exists (fixElement (elementMapOf B) e).
  assert (Hkept : forall bs' b,
             lookup "boundElements" (fixElement (elementMapOf B) e) = JArr bs' ->
             In b bs' -> present B (getProp b "id") = true).
  { intros bs' b. rewrite fixElement_boundElements, fixBoundElements_result.
    destruct (lookup "boundElements" e) as [| |c|q|s|bs|o];
      cbn [truthy]; try discriminate.
    - destruct c; discriminate.
    - destruct (negb _); discriminate.
    - destruct (negb _); discriminate.
    - destruct (filter _ bs) as [|b0 kept] eqn:F; [discriminate|].
      intros [= <-] Hin. rewrite <- F in Hin.
      apply filter_In in Hin as [_ Hb].
      rewrite bindingFilter_has, elementMapOf_has in Hb.
      repeat (apply andb_prop in Hb as [Hb ?]). assumption. }
  split; [|split; [|split; [|split; [|split; [|split]]]]].
  - now rewrite nth_error_validateAndFixBindings, He.
  - intros bs b Hbs Hin. rewrite present_validateAndFixBindings. eauto.
  - rewrite present_validateAndFixBindings, fixElement_containerId.
    rewrite elementMapOf_has.
    destruct (truthy (lookup "containerId" e)) eqn:T; cbn [andb];
      [|congruence].
    destruct (present B (lookup "containerId" e)) eqn:P; cbn [negb truthy];
      [intros _; exact P | discriminate].
  - intros bs b _ _ Hgone bs' Hbs' Hin.
    rewrite (Hkept _ _ Hbs' Hin) in Hgone. discriminate.
  - intros T Hgone. rewrite fixElement_containerId, elementMapOf_has.
    now rewrite T, Hgone.
  - intros T Hthere. rewrite fixElement_containerId, elementMapOf_has.
    now rewrite T, Hthere.
  - intros T. rewrite fixElement_containerId. now rewrite T.
Qed.

(** Three elements of the scenario. [g1_bound] in a batch with [t1] and
    [a1]: of its three bindings the one to [t1] stays, the one to the
    missing ["gone"] goes. [t1] once [g1] is gone: it loses its container.
    [g3_blank] alone: its empty [containerId] stays. *)
Lemma validateAndFixBindings_sound_witness :
  (lookup "boundElements" g1_bound
   = JArr [binding "t1" "text"; binding "gone" "arrow"; binding "t1" "video"]
   /\ map (lookup "boundElements") (validateAndFixBindings batch_bound)
      = [JArr [binding "t1" "text"]; JUndefined; JUndefined]
   /\
   exists e',
     nth_error (validateAndFixBindings batch_bound) 0 = Some e'
     /\ (forall bs b, lookup "boundElements" e' = JArr bs -> In b bs ->
           present (validateAndFixBindings batch_bound) (getProp b "id") = true)
     /\ (truthy (lookup "containerId" e') = true ->
           present (validateAndFixBindings batch_bound) (lookup "containerId" e') = true)
     /\ (forall bs b, lookup "boundElements" g1_bound = JArr bs -> In b bs ->
           present batch_bound (getProp b "id") = false ->
           forall bs', lookup "boundElements" e' = JArr bs' -> ~ In b bs')
     /\ (truthy (lookup "containerId" g1_bound) = true ->
           present batch_bound (lookup "containerId" g1_bound) = false ->
           lookup "containerId" e' = JNull)
     /\ (truthy (lookup "containerId" g1_bound) = true ->
           present batch_bound (lookup "containerId" g1_bound) = true ->
           lookup "containerId" e' = lookup "containerId" g1_bound)
     /\ (truthy (lookup "containerId" g1_bound) = false ->
           lookup "containerId" e' = lookup "containerId" g1_bound))
  /\ (lookup "containerId" t1 = JStr "g1"
      /\ map (lookup "containerId") (validateAndFixBindings batch_g1_deleted)
         = [JNull; JUndefined]
      /\
      exists e',
        nth_error (validateAndFixBindings batch_g1_deleted) 0 = Some e'
        /\ (forall bs b, lookup "boundElements" e' = JArr bs -> In b bs ->
              present (validateAndFixBindings batch_g1_deleted) (getProp b "id") = true)
        /\ (truthy (lookup "containerId" e') = true ->
              present (validateAndFixBindings batch_g1_deleted) (lookup "containerId" e') = true)
        /\ (forall bs b, lookup "boundElements" t1 = JArr bs -> In b bs ->
              present batch_g1_deleted (getProp b "id") = false ->
              forall bs', lookup "boundElements" e' = JArr bs' -> ~ In b bs')
        /\ (truthy (lookup "containerId" t1) = true ->
              present batch_g1_deleted (lookup "containerId" t1) = false ->
              lookup "containerId" e' = JNull)
        /\ (truthy (lookup "containerId" t1) = true ->
              present batch_g1_deleted (lookup "containerId" t1) = true ->
              lookup "containerId" e' = lookup "containerId" t1)
        /\ (truthy (lookup "containerId" t1) = false ->
              lookup "containerId" e' = lookup "containerId" t1))
  /\ (lookup "containerId" g3_blank = JStr ""
      /\ map (lookup "containerId") (validateAndFixBindings [g3_blank])
         = [JStr ""]
      /\
      exists e',
        nth_error (validateAndFixBindings [g3_blank]) 0 = Some e'
        /\ (forall bs b, lookup "boundElements" e' = JArr bs -> In b bs ->
              present (validateAndFixBindings [g3_blank]) (getProp b "id") = true)
        /\ (truthy (lookup "containerId" e') = true ->
              present (validateAndFixBindings [g3_blank]) (lookup "containerId" e') = true)
        /\ (forall bs b, lookup "boundElements" g3_blank = JArr bs -> In b bs ->
              present [g3_blank] (getProp b "id") = false ->
              forall bs', lookup "boundElements" e' = JArr bs' -> ~ In b bs')
        /\ (truthy (lookup "containerId" g3_blank) = true ->
              present [g3_blank] (lookup "containerId" g3_blank) = false ->
              lookup "containerId" e' = JNull)
        /\ (truthy (lookup "containerId" g3_blank) = true ->
              present [g3_blank] (lookup "containerId" g3_blank) = true ->
              lookup "containerId" e' = lookup "containerId" g3_blank)
        /\ (truthy (lookup "containerId" g3_blank) = false ->
              lookup "containerId" e' = lookup "containerId" g3_blank)).
Proof.
  split; [|split]; (split; [reflexivity|split; [reflexivity|]]).
  - apply (validateAndFixBindings_sound batch_bound 0 g1_bound). reflexivity.
  - apply (validateAndFixBindings_sound batch_g1_deleted 0 t1). reflexivity.
  - apply (validateAndFixBindings_sound [g3_blank] 0 g3_blank). reflexivity.
Defined.

(** C3 as stated fails: a [containerId] that is the empty string stays in the
    output as it is, it is neither [null] nor [undefined], and no element of
    the output has the empty string as id. *)
Lemma containerId_empty_string_kept :
  validateAndFixBindings [g3_blank] = [g3_blank]
  /\ lookup "containerId" g3_blank = JStr ""
  /\ absent (JStr "") = false
  /\ present (validateAndFixBindings [g3_blank]) (JStr "") = false.
Proof. repeat split. Qed.

(** C4. Empty normalization: when every entry of an element's
    [boundElements] array is filtered out, the output element's
    [boundElements] is [null], not the empty array. *)
Theorem empty_boundElements_is_null
        (B : list Obj) (i : nat) (e : Obj) (bs : list JsVal) :
  nth_error B i = Some e ->
  lookup "boundElements" e = JArr bs ->
  filter (bindingFilter (elementMapOf B)) bs = [] ->
  exists e',
    nth_error (validateAndFixBindings B) i = Some e'
    /\ lookup "boundElements" e' = JNull
    /\ absent (lookup "boundElements" e') = true
    /\ lookup "boundElements" e' <> JArr [].
Proof.
  intros He Hbs Hf. exists (fixElement (elementMapOf B) e).
  assert (H : lookup "boundElements" (fixElement (elementMapOf B) e) = JNull).
  { now rewrite fixElement_boundElements, fixBoundElements_result, Hbs, Hf. }
  rewrite nth_error_validateAndFixBindings, He, H.
  repeat split. discriminate.
Qed.

(** A shape whose only binding is stale, and the empty array itself. *)
Lemma empty_boundElements_is_null_witness :
  exists e',
    nth_error (validateAndFixBindings [g2_stale; t1]) 0 = Some e'
    /\ lookup "boundElements" e' = JNull
    /\ absent (lookup "boundElements" e') = true
    /\ lookup "boundElements" e' <> JArr [].
Proof.
  apply (empty_boundElements_is_null
           [g2_stale; t1] 0 g2_stale [binding "gone" "text"]);
    reflexivity.
Defined.

(** C5. Type filtering: an entry of [boundElements] whose [type] is neither
    ["text"] nor ["arrow"] is not in the output, whether or not its [id] is
    the id of an element of the batch; every entry that is kept has one of
    the two types. *)
Theorem foreign_binding_type_dropped
        (B : list Obj) (i : nat) (e : Obj) (bs : list JsVal) (b : JsVal) :
  nth_error B i = Some e ->
  lookup "boundElements" e = JArr bs ->
  In b bs ->
  bindingType (getProp b "type") = false ->
  exists e',
    nth_error (validateAndFixBindings B) i = Some e'
    /\ (lookup "boundElements" e' = JNull
        \/ exists kept,
             lookup "boundElements" e' = JArr kept
             /\ ~ In b kept
             /\ forall b', In b' kept ->
                           bindingType (getProp b' "type") = true).
Proof.
  intros He Hbs _ Hty. exists (fixElement (elementMapOf B) e).
  split; [now rewrite nth_error_validateAndFixBindings, He|].
  rewrite fixElement_boundElements, fixBoundElements_result, Hbs.
  destruct (filter _ bs) as [|b0 kept] eqn:F; [now left|].
  right. exists (b0 :: kept). rewrite <- F.
  assert (Hk : forall b', In b' (filter (bindingFilter (elementMapOf B)) bs) ->
                          bindingType (getProp b' "type") = true).
  { intros b' Hin. apply filter_In in Hin as [_ Hb].
    rewrite bindingFilter_has in Hb. now apply andb_prop in Hb as [_ ?]. }
  repeat split; auto.
  intros Hin. apply Hk in Hin. congruence.
Qed.

(** [g1] bound to a video whose id is the id of the label [t1]. *)
Lemma foreign_binding_type_dropped_witness :
  present batch_bound (getProp (binding "t1" "video") "id") = true
  /\ exists e',
       nth_error (validateAndFixBindings batch_bound) 0 = Some e'
       /\ (lookup "boundElements" e' = JNull
           \/ exists kept,
                lookup "boundElements" e' = JArr kept
                /\ ~ In (binding "t1" "video") kept
                /\ forall b', In b' kept ->
                              bindingType (getProp b' "type") = true).
Proof.
  split; [reflexivity|].
  apply (foreign_binding_type_dropped
           batch_bound 0 g1_bound
           [binding "t1" "text"; binding "gone" "arrow"; binding "t1" "video"]
           (binding "t1" "video")).
  - reflexivity.
  - reflexivity.
  - simpl; auto.
  - reflexivity.
Defined.

(** C6. The endpoints of an arrow are outside the repair: whatever its
    [source.boundId] and [target.boundId] name, present in the batch or not,
    the output element has the same [source] and [target], and so the same
    nested [boundId]; only [boundElements] and [containerId] can differ. *)
Theorem arrow_endpoints_unchanged (B : list Obj) (i : nat) (e : Obj) :
  nth_error B i = Some e ->
  exists e',
    nth_error (validateAndFixBindings B) i = Some e'
    /\ lookup "source" e' = lookup "source" e
    /\ lookup "target" e' = lookup "target" e
    /\ getProp (lookup "source" e') "boundId"
       = getProp (lookup "source" e) "boundId"
    /\ getProp (lookup "target" e') "boundId"
       = getProp (lookup "target" e) "boundId"
    /\ (forall k, k <> "boundElements" -> k <> "containerId" ->
                  lookup k e' = lookup k e).
Proof.
  intros He. exists (fixElement (elementMapOf B) e).
  rewrite nth_error_validateAndFixBindings, He.
  rewrite !fixElement_frame by discriminate.
  repeat split. intros k H1 H2. now apply fixElement_frame.
Qed.

(** The arrow [a1] after [g1] is deleted: its source still names [g1]. *)
Lemma arrow_endpoints_unchanged_witness :
  present batch_g1_deleted (getProp (lookup "source" a1) "boundId") = false
  /\ exists e',
       nth_error (validateAndFixBindings batch_g1_deleted) 1 = Some e'
       /\ lookup "source" e' = lookup "source" a1
       /\ lookup "target" e' = lookup "target" a1
       /\ getProp (lookup "source" e') "boundId"
          = getProp (lookup "source" a1) "boundId"
       /\ getProp (lookup "target" e') "boundId"
          = getProp (lookup "target" a1) "boundId"
       /\ (forall k, k <> "boundElements" -> k <> "containerId" ->
                     lookup k e' = lookup k a1).
Proof.
  split; [reflexivity|].
  apply (arrow_endpoints_unchanged batch_g1_deleted 1 a1). reflexivity.
Defined.

(** ** The Tool Bridge *)

Section BridgeFacts.

Variable cfg : Config.
Variable net : Network.

(** With sync off nothing is sent and [syncToCanvas] gives [null]. *)
Lemma syncToCanvas_off operation data calls :
  ENABLE_CANVAS_SYNC cfg = false ->
  syncToCanvas cfg net operation data calls = (Ok JNull, calls).
Proof. intros H. unfold syncToCanvas. now rewrite H. Qed.

(** With sync on, ["create"] sends one request; the result is the parsed
    body of an ok response and [null] in every other case. *)
Lemma syncToCanvas_create_on data calls :
  ENABLE_CANVAS_SYNC cfg = true ->
  syncToCanvas cfg net "create" data calls
  = (Ok (match net (createRequest cfg data) with
         | Responds true _ _ (Ok result) => result
         | _ => JNull
         end),
     (calls ++ [createRequest cfg data])%list).
Proof.
  intros H. unfold syncToCanvas. rewrite H. cbn [negb].
  change ("create" =? "create") with true. cbv iota.
  unfold try_catch, bridge_fetch, bind, modify. fold (createRequest cfg data).
  destruct (net (createRequest cfg data)) as [msg|ok st stt [result|msg]];
    try reflexivity; destruct ok; reflexivity.
Qed.

(** [syncToCanvas] never throws. *)
Lemma syncToCanvas_returns operation data calls :
  exists result calls',
    syncToCanvas cfg net operation data calls = (Ok result, calls').
Proof.
  unfold syncToCanvas. destruct (negb _); [now eexists; eexists|].
  unfold try_catch.
  match goal with
  | |- context [match ?c calls with _ => _ end] =>
      destruct (c calls) as [[r|msg] calls']
  end; now eexists; eexists.
Qed.

(** [createElementOnCanvas] gives the stored element when there is one and
    the payload otherwise, hence never a falsy value for a truthy payload. *)
Lemma createElementOnCanvas_result elementData calls :
  exists result calls',
    syncToCanvas cfg net "create" elementData calls = (Ok result, calls')
    /\ createElementOnCanvas cfg net elementData calls
       = (Ok (js_or (optElement result) elementData), calls').
Proof.
  destruct (syncToCanvas_returns "create" elementData calls)
    as (result & calls' & H).
  exists result, calls'. split; auto.
  unfold createElementOnCanvas, bind. now rewrite H.
Qed.

Lemma js_or_truthy a b : truthy b = true -> truthy (js_or a b) = true.
Proof. unfold js_or. destruct (truthy a) eqn:E; auto. Qed.

Lemma truthy_not_absent v : truthy v = true -> absent v = false.
Proof. destruct v; simpl; congruence. Qed.

(** A value with a truthy property is an object. *)
Lemma truthy_getProp_obj v k :
  truthy (getProp v k) = true -> exists o, v = JObj o.
Proof. destruct v; simpl; try discriminate. eauto. Qed.

Lemma isCreationTool_cases name :
  isCreationTool name = true ->
  name = "create_geometry_element"
  \/ name = "create_arrow_line_element"
  \/ name = "create_freehand_element".
Proof.
  unfold isCreationTool. intros H.
  apply orb_prop in H as [H | H]; [apply orb_prop in H as [H | H]|];
    apply String.eqb_eq in H; auto.
Qed.

(** The three [type] tests of the handler, on a request of the right type. *)
Lemma type_checks_pass name type :
  isCreationTool name = true ->
  strictEqStr type (expectedType name) = true ->
  (name =? "create_arrow_line_element") && negb (strictEqStr type "arrow-line")
  = false
  /\ (name =? "create_freehand_element") && negb (strictEqStr type "freehand")
     = false
  /\ (name =? "create_geometry_element") && negb (strictEqStr type "geometry")
     = false.
Proof.
  intros Hn Ht.
  destruct (isCreationTool_cases _ Hn) as [-> | [-> | ->]];
    vm_compute expectedType in Ht; rewrite ?Ht; repeat split; reflexivity.
Qed.

(** One of the three [type] tests fails on a request of another type. *)
Lemma type_checks_fail name type :
  isCreationTool name = true ->
  strictEqStr type (expectedType name) = false ->
  (if (name =? "create_arrow_line_element")
        && negb (strictEqStr type "arrow-line")
   then true
   else if (name =? "create_freehand_element")
           && negb (strictEqStr type "freehand")
   then true
   else (name =? "create_geometry_element")
        && negb (strictEqStr type "geometry")) = true.
Proof.
  intros Hn Ht.
  destruct (isCreationTool_cases _ Hn) as [-> | [-> | ->]];
    vm_compute expectedType in Ht; rewrite ?Ht; reflexivity.
Qed.

(** Past its checks the handler is [createElementOnCanvas] and the null
    check on what it returned. *)
Lemma callTool_wellFormed name args calls :
  wellFormedRequest name args = true ->
  callTool cfg net name args calls
  = bind (createElementOnCanvas cfg net args)
         (fun canvasElement =>
            if negb (truthy canvasElement)
            then throw "Failed to create element: HTTP server unavailable"
            else ret (successResult canvasElement))
         calls.
Proof.
  unfold wellFormedRequest. intros H.
  apply andb_prop in H as [H Ht]. apply andb_prop in H as [Hn Hid].
  destruct (truthy_getProp_obj _ _ Hid) as [o ->].
  destruct (type_checks_pass _ _ Hn Ht) as (Ha & Hf & Hg).
  unfold callTool. rewrite Hn.
  unfold bind at 1. unfold liftR, getPropE.
  rewrite Hid. cbn [negb]. now rewrite Ha, Hf, Hg.
Qed.

End BridgeFacts.

(** C1, as amended. Bridge degradation: a well-formed creation request gets
    the success payload holding the submitted element, with no network call
    when sync is off, and just the same, after the one failed call, when
    sync is on and the repository is unreachable ([fetch] throws or the
    response is not ok). No failure is reported in either case. *)
Theorem bridge_degrades_to_success
        (cfg : Config) (net : Network) (name : string) (args : JsVal)
        (calls : Calls) :
  wellFormedRequest name args = true ->
  (ENABLE_CANVAS_SYNC cfg = false ->
   handleCallTool cfg net name args calls = (Ok (successResult args), calls))
  /\ (ENABLE_CANVAS_SYNC cfg = true ->
      unreachable (net (createRequest cfg args)) = true ->
      handleCallTool cfg net name args calls
      = (Ok (successResult args), (calls ++ [createRequest cfg args])%list))
  /\ isError (successResult args) = false
  /\ In (Stringify args) (content_text (successResult args)).
Proof.
  intros Hwf.
  assert (Hobj : exists o, args = JObj o).
  { unfold wellFormedRequest in Hwf.
    apply andb_prop in Hwf as [Hwf _]. apply andb_prop in Hwf as [_ Hid].
    eapply truthy_getProp_obj; eauto. }
  destruct Hobj as [o ->].
  repeat split.
  - intros Hoff. unfold handleCallTool, try_catch.
    rewrite callTool_wellFormed by assumption.
    unfold bind, createElementOnCanvas, bind.
    now rewrite syncToCanvas_off.
  - intros Hon Hdown. unfold handleCallTool, try_catch.
    rewrite callTool_wellFormed by assumption.
    unfold bind, createElementOnCanvas, bind.
    rewrite syncToCanvas_create_on by assumption.
    destruct (net (createRequest cfg (JObj o))) as [msg|ok st stt json];
      [reflexivity|].
    cbn [unreachable] in Hdown. destruct ok; [discriminate | reflexivity].
  - simpl. auto.
Qed.

(** [g1] sent with sync off, and with sync on to a repository answering
    503. *)
Lemma bridge_degrades_to_success_witness :
  handleCallTool cfg_sync_off net_down "create_geometry_element" (JObj g1) []
  = (Ok (successResult (JObj g1)), [])
  /\ handleCallTool cfg_default net_503 "create_geometry_element" (JObj g1) []
     = (Ok (successResult (JObj g1)), [createRequest cfg_default (JObj g1)]).
Proof.
  split.
  - apply (proj1 (bridge_degrades_to_success
                    cfg_sync_off net_down "create_geometry_element"
                    (JObj g1) [] eq_refl)).
    reflexivity.
  - apply (proj1 (proj2 (bridge_degrades_to_success
                           cfg_default net_503 "create_geometry_element"
                           (JObj g1) [] eq_refl)));
      reflexivity.
Defined.

(** C1 as stated fails: with sync on and the repository refusing the
    connection, the well-formed request for [g1] is answered with the
    success payload, [isError] not set, after one call that failed. *)
Lemma unreachable_repository_reported_as_success :
  wellFormedRequest "create_geometry_element" (JObj g1) = true
  /\ ENABLE_CANVAS_SYNC cfg_default = true
  /\ unreachable (net_down (createRequest cfg_default (JObj g1))) = true
  /\ handleCallTool cfg_default net_down "create_geometry_element" (JObj g1) []
     = (Ok (successResult (JObj g1)), [createRequest cfg_default (JObj g1)])
  /\ isError (successResult (JObj g1)) = false.
Proof. repeat split. Qed.

(** C7. Fail fast: a creation request whose [type] is not the type of the
    tool it calls, and a request that names no creation tool, is answered
    with an error that says why, and the list of network calls is what it
    was before. *)
Theorem mismatch_or_unknown_rejected
        (cfg : Config) (net : Network) (name : string) (args : JsVal)
        (calls : Calls) :
  isCreationTool name = false
  \/ (isCreationTool name = true
      /\ strictEqStr (getProp args "type") (expectedType name) = false) ->
  exists message,
    handleCallTool cfg net name args calls = (Ok (errorResult message), calls)
    /\ isError (errorResult message) = true
    /\ (isCreationTool name = false -> message = "Unknown tool: " ++ name)
    /\ (isCreationTool name = true ->
        message
        = if absent args then typeErrorMessage args "id"
          else if negb (truthy (getProp args "id"))
               then "Failed to create element: id is required"
               else "Failed to create element: type must be "
                    ++ expectedType name).
Proof.
  intros [Hn | [Hn Ht]].
  - exists ("Unknown tool: " ++ name).
    unfold handleCallTool, try_catch, callTool. rewrite Hn.
    repeat split; congruence.
  - exists (if absent args then typeErrorMessage args "id"
            else if negb (truthy (getProp args "id"))
                 then "Failed to create element: id is required"
                 else "Failed to create element: type must be "
                      ++ expectedType name).
    repeat split; [|congruence].
    unfold handleCallTool, try_catch, callTool. rewrite Hn.
    unfold bind at 1. unfold liftR.
    assert (Hmis := type_checks_fail _ _ Hn Ht).
    destruct (absent args) eqn:Ha.
    + destruct args; try discriminate; reflexivity.
    + assert (Hget : getPropE args "id" = Ok (getProp args "id"))
        by (destruct args; try discriminate; reflexivity).
      rewrite Hget.
      destruct (negb (truthy (getProp args "id"))); [reflexivity|].
      destruct (isCreationTool_cases _ Hn) as [-> | [-> | ->]];
        vm_compute expectedType in Ht; vm_compute expectedType;
        rewrite Ht; reflexivity.
Qed.

(** The rectangle [g1] sent to the arrow tool, and a tool that does not
    exist. *)
Lemma mismatch_or_unknown_rejected_witness :
  (exists message,
     handleCallTool cfg_default net_up "create_arrow_line_element" (JObj g1) []
     = (Ok (errorResult message), [])
     /\ isError (errorResult message) = true
     /\ (isCreationTool "create_arrow_line_element" = false ->
         message = "Unknown tool: " ++ "create_arrow_line_element")
     /\ (isCreationTool "create_arrow_line_element" = true ->
         message = "Failed to create element: type must be arrow-line"))
  /\ (exists message,
        handleCallTool cfg_default net_up "delete_element" (JObj g1) []
        = (Ok (errorResult message), [])
        /\ isError (errorResult message) = true
        /\ (isCreationTool "delete_element" = false ->
            message = "Unknown tool: delete_element")
        /\ (isCreationTool "delete_element" = true ->
            message = "Failed to create element: type must be geometry")).
Proof.
  split.
  - apply (mismatch_or_unknown_rejected
             cfg_default net_up "create_arrow_line_element" (JObj g1) []).
    right. split; reflexivity.
  - apply (mismatch_or_unknown_rejected
             cfg_default net_up "delete_element" (JObj g1) []).
    left. reflexivity.
Defined.

(** C10. For a request that passes the handler's checks,
    [createElementOnCanvas] returns a value that is neither [null] nor
    [undefined]. With sync on it is the [element] of the repository's answer
    when the answer is ok, its body is JSON and that [element] is truthy: the
    stored element; in every other case, and always with sync off, it is the
    submitted payload itself. The handler then returns the success payload
    with that value, so its ``HTTP server unavailable'' error is never
    returned. *)
Theorem null_check_unreachable
        (cfg : Config) (net : Network) (name : string) (args : JsVal)
        (calls : Calls) :
  wellFormedRequest name args = true ->
  exists canvasElement calls',
    createElementOnCanvas cfg net args calls = (Ok canvasElement, calls')
    /\ canvasElement
       = (if ENABLE_CANVAS_SYNC cfg then
            match net (createRequest cfg args) with
            | Responds true _ _ (Ok reply) =>
                if truthy (optElement reply) then getProp reply "element"
                else args
            | _ => args
            end
          else args)
    /\ calls'
       = (if ENABLE_CANVAS_SYNC cfg then calls ++ [createRequest cfg args]
          else calls)%list
    /\ truthy canvasElement = true
    /\ absent canvasElement = false
    /\ handleCallTool cfg net name args calls
       = (Ok (successResult canvasElement), calls')
    /\ fst (handleCallTool cfg net name args calls) <> Ok unavailableResult.
Proof.
  intros Hwf.
  assert (Hargs : truthy args = true).
  { unfold wellFormedRequest in Hwf.
    apply andb_prop in Hwf as [Hwf _]. apply andb_prop in Hwf as [_ Hid].
    destruct (truthy_getProp_obj _ _ Hid) as [o ->]. reflexivity. }
  destruct (createElementOnCanvas_result cfg net args calls)
    as (result & calls' & Hsync & Hcreate).
  exists (js_or (optElement result) args), calls'.
  assert (Ht : truthy (js_or (optElement result) args) = true)
    by now apply js_or_truthy.
  assert (Hh : handleCallTool cfg net name args calls
               = (Ok (successResult (js_or (optElement result) args)), calls')).
  { unfold handleCallTool, try_catch.
    rewrite callTool_wellFormed by assumption.
    unfold bind at 1. rewrite Hcreate, Ht. reflexivity. }
  assert (Hval : js_or (optElement result) args
                 = (if ENABLE_CANVAS_SYNC cfg then
                      match net (createRequest cfg args) with
                      | Responds true _ _ (Ok reply) =>
                          if truthy (optElement reply)
                          then getProp reply "element" else args
                      | _ => args
                      end
                    else args)
                 /\ calls'
                    = (if ENABLE_CANVAS_SYNC cfg
                       then calls ++ [createRequest cfg args]
                       else calls)%list).
  { destruct (ENABLE_CANVAS_SYNC cfg) eqn:Hon.
    - rewrite syncToCanvas_create_on in Hsync by assumption.
      injection Hsync as <- <-. split; [|reflexivity].
      destruct (net (createRequest cfg args)) as [msg|[|] st stt [reply|msg]];
        try reflexivity.
      unfold js_or. destruct (truthy (optElement reply)) eqn:To;
        [|reflexivity].
      destruct reply; try discriminate; reflexivity.
    - rewrite syncToCanvas_off in Hsync by assumption.
      injection Hsync as <- <-. split; reflexivity. }
  destruct Hval as [Hval Hcalls].
  split; [exact Hcreate|]. split; [exact Hval|]. split; [exact Hcalls|].
  split; [exact Ht|]. split; [now apply truthy_not_absent|].
  split; [exact Hh|].
  rewrite Hh. cbn [fst]. unfold successResult, unavailableResult, errorResult.
  intros [= ].
Qed.

(** [g1] stored by a live repository, which stamps [version]: the stored
    element comes back, not the payload. With sync off the payload comes
    back and no request is made. *)
Lemma null_check_unreachable_witness :
  (exists canvasElement calls',
     createElementOnCanvas cfg_default net_up (JObj g1) []
     = (Ok canvasElement, calls')
     /\ canvasElement = JObj (g1 ++ [("version", num 1)])%list
     /\ calls' = [createRequest cfg_default (JObj g1)]
     /\ truthy canvasElement = true
     /\ absent canvasElement = false
     /\ handleCallTool cfg_default net_up "create_geometry_element" (JObj g1) []
        = (Ok (successResult canvasElement), calls')
     /\ fst (handleCallTool cfg_default net_up "create_geometry_element"
                            (JObj g1) [])
        <> Ok unavailableResult)
  /\ (exists canvasElement calls',
        createElementOnCanvas cfg_sync_off net_up (JObj g1) []
        = (Ok canvasElement, calls')
        /\ canvasElement = JObj g1
        /\ calls' = []
        /\ truthy canvasElement = true
        /\ absent canvasElement = false
        /\ handleCallTool cfg_sync_off net_up "create_geometry_element"
                          (JObj g1) []
           = (Ok (successResult canvasElement), calls')
        /\ fst (handleCallTool cfg_sync_off net_up "create_geometry_element"
                               (JObj g1) [])
           <> Ok unavailableResult).
Proof.
  split.
  - apply (null_check_unreachable
             cfg_default net_up "create_geometry_element" (JObj g1) []).
    reflexivity.
  - apply (null_check_unreachable
             cfg_sync_off net_up "create_geometry_element" (JObj g1) []).
    reflexivity.
Defined.

(** ** The web client *)

Section ClientFacts.

Variable idCreator : nat -> string.
Variable buildText : JsVal -> JsVal -> Result JsVal.
Variable codeUnits : string -> list JsVal.

(** Building the text of an arrow label leaves the client state alone. *)
Lemma convertArrowLineText_state arrowLine a :
  snd (convertArrowLineText buildText codeUnits arrowLine a) = a.
Proof.
  unfold convertArrowLineText, bind, liftR, ret.
  destruct (getPropE arrowLine "text") as [text|msg]; [|reflexivity].
  now destruct (buildText _ _).
Qed.

Lemma mapM_convertArrowLineText_state items a :
  snd (mapM (convertArrowLineText buildText codeUnits) items a) = a.
Proof.
  induction items as [|x items IH]; [reflexivity|].
  cbn [mapM]. unfold bind at 1.
  pose proof (convertArrowLineText_state x a) as Hx.
  destruct (convertArrowLineText buildText codeUnits x a) as [[y|msg] a1];
    cbn [snd] in Hx; subst a1; [|reflexivity].
  unfold bind. destruct (mapM _ items a) as [[ys|msg] a2];
    cbn [snd] in IH; now subst a2.
Qed.

(** Converting an element touches nothing but the id counter. *)
Lemma convertPlaitElement_state element a r a1 :
  convertPlaitElement idCreator buildText codeUnits element a = (r, a1) ->
  a1 = a \/ a1 = set_idCount (S (idCount a)) a.
Proof.
  unfold convertPlaitElement. unfold bind at 1. unfold liftR at 1.
  destruct (getPropE element "type") as [type|msg]; [|intros [= _ <-]; now left].
  destruct (strictEqStr type "geometry").
  - unfold bind, newId, bind, gets, modify, liftR, ret.
    destruct (buildText _ _); intros [= _ <-]; now right.
  - destruct (strictEqStr type "arrow-line"); [|intros [= _ <-]; now left].
    unfold bind at 1. unfold newId, bind, gets, modify, ret.
    set (a2 := set_idCount (S (idCount a)) a).
    destruct (getProp element "texts") as [| |b|q|s|items|o];
      try (intros [= _ <-]; now right).
    pose proof (mapM_convertArrowLineText_state items a2) as Hs.
    destruct (mapM _ items a2) as [[ts|msg] a3]; cbn [snd] in Hs; subst a3;
      intros [= _ <-]; now right.
Qed.

(** A converted element is [undefined] (a type that is neither geometry nor
    arrow-line) or a copy of the object received in which [boundElements]
    and [containerId] are what they were. *)
Lemma convertPlaitElement_keeps_references element a element' a1 :
  convertPlaitElement idCreator buildText codeUnits element a = (Ok element', a1) ->
  element' = JUndefined
  \/ exists o o',
       element = JObj o /\ element' = JObj o'
       /\ lookup "boundElements" o' = lookup "boundElements" o
       /\ lookup "containerId" o' = lookup "containerId" o.
Proof.
  unfold convertPlaitElement. unfold bind at 1. unfold liftR at 1.
  destruct (getPropE element "type") as [type|msg] eqn:Hty; [|discriminate].
  assert (Hobj : forall t, strictEqStr type t = true -> exists o, element = JObj o).
  { intros t Ht. destruct element; try discriminate; cbn in Hty;
      injection Hty as <-; try discriminate. eauto. }
  destruct (strictEqStr type "geometry") eqn:Hg.
  - destruct (Hobj _ Hg) as [o ->].
    unfold bind, newId, bind, gets, modify, liftR, ret.
    destruct (buildText _ _) as [text|msg]; [|discriminate].
    intros [= <- _]. right. eexists; eexists. repeat split.
    all: cbn [spread]; now rewrite !lookup_setProp_neq by discriminate.
  - destruct (strictEqStr type "arrow-line") eqn:Ha;
      [|intros [= <- _]; now left].
    destruct (Hobj _ Ha) as [o ->].
    unfold bind at 1. unfold newId, bind, gets, modify, ret.
    match goal with
    | |- context [match ?c with _ => _ end] =>
        destruct c as [[texts|msg] a3]; [|discriminate]
    end.
    intros [= <- _]. right. eexists; eexists. repeat split.
    all: cbn [spread]; now rewrite !lookup_setProp_neq by discriminate.
Qed.

(** The texts of an arrow line are built without the client state. *)
Lemma mapM_convertArrowLineText_built items a :
  mapM (convertArrowLineText buildText codeUnits) items a
  = (match sequenceR (map (builtArrowLineText buildText codeUnits) items) with
     | Ok ts => Ok ts
     | Throw e => Throw e
     end, a).
Proof.
  induction items as [|x items IH]; [reflexivity|].
  cbn [mapM map sequenceR]. unfold bind at 1.
  unfold convertArrowLineText at 1, builtArrowLineText at 1.
  unfold bind, liftR, ret.
  destruct (getPropE x "text") as [text|msg]; [|reflexivity].
  destruct (buildText _ _) as [built|msg]; [|reflexivity].
  fold (@bind App). rewrite IH.
  now destruct (sequenceR _).
Qed.

(** Converting nothing throws, with the state as it was. *)
Lemma convertPlaitElement_absent element a :
  absent element = true ->
  convertPlaitElement idCreator buildText codeUnits element a
  = (Throw (typeErrorMessage element "type"), a).
Proof.
  now destruct element.
Qed.

(** A geometry: a copy with the next id of the toolkit and the built
    text. *)
Lemma convertPlaitElement_geometry o a :
  strictEqStr (lookup "type" o) "geometry" = true ->
  convertPlaitElement idCreator buildText codeUnits (JObj o) a
  = (match buildText (js_or (lookup "text" o) (JStr ""))
                     (js_or (lookup "textAlign" o) (JStr "center")) with
     | Ok text =>
         Ok (JObj (setProp "text" text
                           (setProp "id" (JStr (idCreator (idCount a))) o)))
     | Throw e => Throw e
     end, set_idCount (S (idCount a)) a).
Proof.
  intros Hty. unfold convertPlaitElement, bind at 1, liftR at 1.
  cbn [getPropE getProp]. rewrite Hty.
  unfold bind, newId, bind, gets, modify, liftR, ret. cbn [spread].
  now destruct (buildText _ _).
Qed.

(** An arrow line: a copy with the next id of the toolkit and the built
    texts. *)
Lemma convertPlaitElement_arrow_line o a :
  strictEqStr (lookup "type" o) "arrow-line" = true ->
  convertPlaitElement idCreator buildText codeUnits (JObj o) a
  = (match builtTexts buildText codeUnits (lookup "texts" o) with
     | Ok texts =>
         Ok (JObj (setProp "texts" texts
                           (setProp "id" (JStr (idCreator (idCount a))) o)))
     | Throw e => Throw e
     end, set_idCount (S (idCount a)) a).
Proof.
  intros Hty. unfold convertPlaitElement, bind at 1, liftR at 1.
  cbn [getPropE getProp].
  assert (Hg : strictEqStr (lookup "type" o) "geometry" = false).
  { destruct (lookup "type" o); try reflexivity. cbn in Hty |- *.
    apply String.eqb_eq in Hty. now subst. }
  rewrite Hg, Hty. unfold bind at 1. unfold newId, bind, gets, modify, ret.
  cbn [spread]. unfold builtTexts.
  destruct (lookup "texts" o) as [| |b|q|s|items|o']; try reflexivity.
  rewrite mapM_convertArrowLineText_built.
  now destruct (sequenceR _).
Qed.

(** Anything else that is there converts to [undefined]. *)
Lemma convertPlaitElement_other element a :
  absent element = false ->
  strictEqStr (getProp element "type") "geometry" = false ->
  strictEqStr (getProp element "type") "arrow-line" = false ->
  convertPlaitElement idCreator buildText codeUnits element a
  = (Ok JUndefined, a).
Proof.
  intros Hel Hg Ha. unfold convertPlaitElement, bind, liftR.
  destruct element; try discriminate; cbn [getPropE]; now rewrite Hg, Ha.
Qed.

(** A copy carries the id just drawn from the toolkit. *)
Lemma convertPlaitElement_id o a o' a1 :
  convertPlaitElement idCreator buildText codeUnits (JObj o) a
  = (Ok (JObj o'), a1) ->
  lookup "id" o' = JStr (idCreator (idCount a)).
Proof.
  destruct (strictEqStr (lookup "type" o) "geometry") eqn:Hg.
  - rewrite (convertPlaitElement_geometry _ _ Hg).
    destruct (buildText _ _); [|discriminate]. intros [= <- _].
    rewrite lookup_setProp_neq by discriminate. apply lookup_setProp_eq.
  - destruct (strictEqStr (lookup "type" o) "arrow-line") eqn:Ha.
    + rewrite (convertPlaitElement_arrow_line _ _ Ha).
      destruct (builtTexts _ _ _); [|discriminate]. intros [= <- _].
      rewrite lookup_setProp_neq by discriminate. apply lookup_setProp_eq.
    + rewrite convertPlaitElement_other by (reflexivity || assumption).
      discriminate.
Qed.

Lemma insertNode_at_end children node :
  insertNode children node (List.length children) = (children ++ [node])%list.
Proof.
  unfold insertNode. now rewrite firstn_all, skipn_all.
Qed.

End ClientFacts.

(** C8, as amended. Push messages: [elements_synced] and [sync_status]
    leave the client state as it is. For [element_created] on a ready board
    the element of the message goes through [convertPlaitElement] and not
    through the Binding Validator: what the conversion returns goes in at
    the end of the board's children, and when it throws nothing goes in.
    The conversion throws when the message has no element; a geometry comes
    back as a copy with the next id of the toolkit and the built text, an
    arrow line as a copy with the next id and the built texts, unless the
    building throws; anything else comes back as [undefined]. A copy has
    the [boundElements] and the [containerId] it arrived with. The
    [elements] state is not written. *)
Theorem handleWebSocketMessage_effect
        (idCreator : nat -> string)
        (buildText : JsVal -> JsVal -> Result JsVal)
        (codeUnits : string -> list JsVal)
        (data : JsVal) (a : App) :
  (strictEqStr (getProp data "type") "elements_synced" = true
   \/ strictEqStr (getProp data "type") "sync_status" = true ->
   handleWebSocketMessage idCreator buildText codeUnits data a = (Ok tt, a))
  /\ (forall cs,
        strictEqStr (getProp data "type") "element_created" = true ->
        board a = Some cs ->
        handleWebSocketMessage idCreator buildText codeUnits data a
        = (Ok tt,
           match convertPlaitElement idCreator buildText codeUnits
                                     (getProp data "element") a with
           | (Ok element', a1) => set_board (Some (cs ++ [element'])%list) a1
           | (Throw _, a1) => a1
           end))
  /\ (absent (getProp data "element") = true ->
      convertPlaitElement idCreator buildText codeUnits
                          (getProp data "element") a
      = (Throw (typeErrorMessage (getProp data "element") "type"), a))
  /\ (forall o,
        getProp data "element" = JObj o ->
        strictEqStr (lookup "type" o) "geometry" = true ->
        convertPlaitElement idCreator buildText codeUnits (JObj o) a
        = (match buildText (js_or (lookup "text" o) (JStr ""))
                           (js_or (lookup "textAlign" o) (JStr "center")) with
           | Ok text =>
               Ok (JObj (setProp "text" text
                           (setProp "id" (JStr (idCreator (idCount a))) o)))
           | Throw e => Throw e
           end, set_idCount (S (idCount a)) a))
  /\ (forall o,
        getProp data "element" = JObj o ->
        strictEqStr (lookup "type" o) "arrow-line" = true ->
        convertPlaitElement idCreator buildText codeUnits (JObj o) a
        = (match builtTexts buildText codeUnits (lookup "texts" o) with
           | Ok texts =>
               Ok (JObj (setProp "texts" texts
                           (setProp "id" (JStr (idCreator (idCount a))) o)))
           | Throw e => Throw e
           end, set_idCount (S (idCount a)) a))
  /\ (absent (getProp data "element") = false ->
      strictEqStr (getProp (getProp data "element") "type") "geometry" = false ->
      strictEqStr (getProp (getProp data "element") "type") "arrow-line"
      = false ->
      convertPlaitElement idCreator buildText codeUnits
                          (getProp data "element") a
      = (Ok JUndefined, a))
  /\ (forall r a1,
        convertPlaitElement idCreator buildText codeUnits
                            (getProp data "element") a = (r, a1) ->
        elements a1 = elements a
        /\ forall element',
             r = Ok element' ->
             element' = JUndefined
             \/ exists o o',
                  getProp data "element" = JObj o /\ element' = JObj o'
                  /\ lookup "id" o' = JStr (idCreator (idCount a))
                  /\ lookup "boundElements" o' = lookup "boundElements" o
                  /\ lookup "containerId" o' = lookup "containerId" o).
Proof.
  assert (Hobj : forall t, strictEqStr (getProp data "type") t = true ->
                           getPropE data "type" = Ok (JStr t)).
  { intros t Ht. destruct data; try discriminate.
    cbn [getPropE]. destruct (getProp _ _); try discriminate.
    cbn in Ht. apply String.eqb_eq in Ht. now subst. }
  split; [|split; [|split; [|split; [|split; [|split]]]]].
  - intros [H | H]; unfold handleWebSocketMessage, try_catch, bind, liftR;
      rewrite (Hobj _ H); reflexivity.
  - intros cs Hty Hb.
    unfold handleWebSocketMessage, try_catch, bind at 1, liftR.
    rewrite (Hobj _ Hty).
    change (strictEqStr (JStr "element_created") "element_created") with true.
    cbv iota. unfold bind at 1.
    destruct (convertPlaitElement idCreator buildText codeUnits
                                  (getProp data "element") a)
      as [[element'|msg] a1] eqn:Hconv; [|reflexivity].
    assert (Hboard : board a1 = Some cs).
    { destruct (convertPlaitElement_state _ _ _ _ _ _ _ Hconv) as [-> | ->];
        exact Hb. }
    unfold bind, boardChildren, modify. rewrite Hboard.
    now rewrite insertNode_at_end.
  - apply convertPlaitElement_absent.
  - intros o _. apply convertPlaitElement_geometry.
  - intros o _. apply convertPlaitElement_arrow_line.
  - apply convertPlaitElement_other.
  - intros r a1 Hconv. split.
    + destruct (convertPlaitElement_state _ _ _ _ _ _ _ Hconv) as [-> | ->];
        reflexivity.
    + intros element' ->.
      destruct (convertPlaitElement_keeps_references _ _ _ _ _ _ _ Hconv)
        as [-> | (o & o' & Ho & -> & Hbe & Hc)]; [now left|].
      right. exists o, o'. repeat split; try assumption.
      rewrite Ho in Hconv. exact (convertPlaitElement_id _ _ _ _ _ _ _ Hconv).
Qed.

(** A [sync_status] message, and [pushed] arriving on an empty board: it is
    appended with its dangling binding and container, under the id
    [el0]. *)
Lemma handleWebSocketMessage_effect_witness :
  handleWebSocketMessage sample_idCreator sample_buildText sample_codeUnits
                         (message "sync_status" [("count", num 3)]) app0
  = (Ok tt, app0)
  /\ handleWebSocketMessage sample_idCreator sample_buildText sample_codeUnits
                            (message "element_created"
                                     [("element", JObj pushed)]) app0
     = (Ok tt, set_board (Some [JObj pushed_converted]) (set_idCount 1 app0))
  /\ convertPlaitElement sample_idCreator sample_buildText sample_codeUnits
                         (JObj pushed) app0
     = (Ok (JObj pushed_converted), set_idCount 1 app0)
  /\ (elements (set_idCount 1 app0) = elements app0
      /\ (JObj pushed_converted = JUndefined
          \/ exists o o',
               JObj pushed = JObj o /\ JObj pushed_converted = JObj o'
               /\ lookup "id" o' = JStr "el0"
               /\ lookup "boundElements" o' = lookup "boundElements" o
               /\ lookup "containerId" o' = lookup "containerId" o)).
Proof.
  pose proof (handleWebSocketMessage_effect
                sample_idCreator sample_buildText sample_codeUnits
                (message "sync_status" [("count", num 3)]) app0)
    as (Hack & _).
  pose proof (handleWebSocketMessage_effect
                sample_idCreator sample_buildText sample_codeUnits
                (message "element_created" [("element", JObj pushed)]) app0)
    as (_ & Happend & _ & Hgeometry & _ & _ & Hkept).
  split; [|split; [|split]].
  - apply Hack. right. reflexivity.
  - exact (Happend [] eq_refl eq_refl).
  - exact (Hgeometry pushed eq_refl eq_refl).
  - destruct (Hkept (Ok (JObj pushed_converted)) (set_idCount 1 app0) eq_refl)
      as [Hels Hcopy].
    split; [exact Hels | exact (Hcopy _ eq_refl)].
Defined.

(** C8 as stated fails: [pushed] names a binding and a container that do
    not exist; the validator would set both fields to [null], yet the
    element appended to the board still has them, and it is not a fixed
    point of the validator. *)
Lemma pushed_element_not_validated :
  handleWebSocketMessage sample_idCreator sample_buildText sample_codeUnits
                         (message "element_created" [("element", JObj pushed)])
                         app0
  = (Ok tt, set_board (Some [JObj pushed_converted]) (set_idCount 1 app0))
  /\ lookup "boundElements" pushed_converted = JArr [binding "gone" "text"]
  /\ lookup "containerId" pushed_converted = JStr "gone"
  /\ present [pushed_converted] (JStr "gone") = false
  /\ map (lookup "boundElements") (validateAndFixBindings [pushed]) = [JNull]
  /\ map (lookup "containerId") (validateAndFixBindings [pushed]) = [JNull]
  /\ map (lookup "boundElements") (validateAndFixBindings [pushed_converted])
     = [JNull]
  /\ map (lookup "containerId") (validateAndFixBindings [pushed_converted])
     = [JNull].
Proof. repeat split. Qed.

(** Runs [syncToBackend] through every outcome of its one [fetch]. *)
Ltac run_syncToBackend net :=
  unfold syncToBackend, bind, modify, try_catch, gets, client_fetch, bind,
    modify, throw, ret, liftR;
  cbn [elements setSyncStatus];
  destruct (net _) as [?|[|] ? ? [r|?]]; try reflexivity;
  cbn [fst snd]; destruct (getPropE r _); try reflexivity;
  destruct (toStr _ _); reflexivity.

(** [syncToBackend] makes one request and leaves the [elements] state as it
    is. *)
Lemma syncToBackend_request
      (numberToString : Q -> string)
      (net : Network) (now later : string) (a : App) :
  sent (snd (syncToBackend numberToString net now later a))
  = (sent a
     ++ [mkRequest "/api/elements/sync" "POST"
           (JObj [("elements", JArr (map JObj (backendElements (elements a))));
                  ("timestamp", JStr now)])])%list
  /\ elements (snd (syncToBackend numberToString net now later a))
     = elements a.
Proof.
  split; run_syncToBackend net.
Qed.

Lemma backendElements_filter (els : list Obj) :
  backendElements els
  = filter (fun el => negb (truthy (lookup "isDeleted" el))) els.
Proof.
  unfold backendElements, convertToBackendFormat. apply map_id.
Qed.

(** What [syncToBackend] does with an [elements] state, whatever it holds:
    one request, whose [elements] are the local elements that are not
    marked [isDeleted], in order, each as it is held locally, no field
    taken out. *)
Theorem syncToBackend_upload
        (numberToString : Q -> string)
        (net : Network) (now later : string) (a : App) :
  sent (snd (syncToBackend numberToString net now later a))
  = (sent a
     ++ [mkRequest "/api/elements/sync" "POST"
           (JObj [("elements", JArr (map JObj (backendElements (elements a))));
                  ("timestamp", JStr now)])])%list
  /\ backendElements (elements a)
     = filter (fun el => negb (truthy (lookup "isDeleted" el))) (elements a)
  /\ (forall el,
        In el (backendElements (elements a))
        <-> In el (elements a) /\ truthy (lookup "isDeleted" el) = false)
  /\ elements (snd (syncToBackend numberToString net now later a))
     = elements a.
Proof.
  destruct (syncToBackend_request numberToString net now later a) as [Hs He].
  split; [exact Hs | split; [apply backendElements_filter | split]].
  - intros el. rewrite backendElements_filter, filter_In, negb_true_iff. tauto.
  - exact He.
Qed.

(** Push messages never crash the client: whatever arrives, the handler
    returns normally, and a message whose [type] is not ["element_created"]
    (an unknown type included) leaves the state as it is. *)
Theorem handleWebSocketMessage_total
        (idCreator : nat -> string)
        (buildText : JsVal -> JsVal -> Result JsVal)
        (codeUnits : string -> list JsVal)
        (data : JsVal) (a : App) :
  fst (handleWebSocketMessage idCreator buildText codeUnits data a) = Ok tt
  /\ (strictEqStr (getProp data "type") "element_created" = false ->
      snd (handleWebSocketMessage idCreator buildText codeUnits data a) = a).
Proof.
  split.
  - unfold handleWebSocketMessage, try_catch.
    match goal with
    | |- context [match ?c with _ => _ end] =>
        destruct c as [[[]|msg] a1]; reflexivity
    end.
  - intros Hty. unfold handleWebSocketMessage, try_catch, bind, liftR.
    destruct data; cbn [getPropE]; try reflexivity;
      cbn [getProp] in *; try rewrite Hty;
      repeat match goal with
             | |- context [if ?b then _ else _] => destruct b
             end; reflexivity.
Qed.

(** The validator returns as many elements as it was given, with the ids
    they had, in the same order. *)
Theorem validateAndFixBindings_keeps_ids (B : list Obj) :
  List.length (validateAndFixBindings B) = List.length B
  /\ map (lookup "id") (validateAndFixBindings B) = map (lookup "id") B.
Proof.
  unfold validateAndFixBindings. split; [apply length_map|].
  rewrite map_map. apply map_ext. intros e.
  apply fixElement_frame; discriminate.
Qed.

(** ** Bookkeeping fields *)

Section BookkeepingFacts.

Implicit Types (k : string) (o : Obj).

Lemma hasProp_removeProp k k' o :
  hasProp k (removeProp k' o) = if (k' =? k) then false else hasProp k o.
Proof.
  induction o as [|[k0 v0] o IH]; simpl.
  - now destruct (k' =? k).
  - destruct (k0 =? k') eqn:E.
    + apply String.eqb_eq in E; subst k0. rewrite IH.
      destruct (k' =? k); reflexivity.
    + simpl. rewrite IH. destruct (k' =? k) eqn:E'; [|reflexivity].
      apply String.eqb_eq in E'; subst k'. now rewrite E.
Qed.

Lemma lookup_removeProp_neq k k' o :
  (k' =? k) = false -> lookup k (removeProp k' o) = lookup k o.
Proof.
  intros Hne. induction o as [|[k0 v0] o IH]; simpl; [reflexivity|].
  destruct (k0 =? k') eqn:E.
  - apply String.eqb_eq in E; subst k0. now rewrite Hne.
  - simpl. now rewrite IH.
Qed.

End BookkeepingFacts.

(** ** More on the Binding Validator *)

Section ValidatorShape.

Implicit Types (k : string) (v : JsVal) (o e : Obj) (m : JsMap Obj).

Lemma hasProp_setProp k k' v o :
  hasProp k (setProp k' v o) = hasProp k o || (k' =? k).
Proof.
  induction o as [|[k0 v0] o IH]; simpl.
  - now rewrite orb_false_r.
  - destruct (k0 =? k') eqn:E; simpl.
    + apply String.eqb_eq in E; subst k0.
      destruct (k' =? k); simpl; auto. now rewrite orb_false_r.
    + rewrite IH. now rewrite orb_assoc.
Qed.

Lemma fixBoundElements_names m e :
  map fst (fixBoundElements m e) = map fst e.
Proof.
  unfold fixBoundElements.
  destruct (truthy (lookup "boundElements" e)) eqn:T; [|reflexivity].
  pose proof (truthy_hasProp _ _ T) as Hp.
  destruct (lookup "boundElements" e); try now rewrite map_fst_setProp.
  destruct (_ =? _)%nat; rewrite !map_fst_setProp; auto.
  rewrite hasProp_setProp, Hp. reflexivity.
Qed.

Lemma fixContainerId_names m e :
  map fst (fixContainerId m e) = map fst e.
Proof.
  rewrite fixContainerId_has.
  destruct (truthy (lookup "containerId" e)) eqn:T; simpl; [|reflexivity].
  destruct (negb _); [|reflexivity].
  apply map_fst_setProp. now apply truthy_hasProp.
Qed.

End ValidatorShape.

(** The validator neither adds nor removes a property: every output element
    has the property names of the input element at its place, in the same
    order. A repaired field is set to [null], not deleted, and an element
    without [boundElements] or [containerId] gets none. *)
Theorem validateAndFixBindings_keeps_property_names (B : list Obj) :
  map (map fst) (validateAndFixBindings B) = map (map fst) B.
Proof.
  unfold validateAndFixBindings. rewrite map_map. apply map_ext.
  intros e. unfold fixElement.
  now rewrite fixContainerId_names, fixBoundElements_names.
Qed.

Section SoundBatches.

Implicit Types (B : list Obj) (e : Obj).

Lemma bindingFilter_validBinding B b :
  bindingFilter (elementMapOf B) b = validBinding B b.
Proof. now rewrite bindingFilter_has, elementMapOf_has. Qed.

Lemma forallb_pointwise {A : Type} (f g : A -> bool) (l : list A) :
  (forall a, f a = g a) -> forallb f l = forallb g l.
Proof.
  intros H. induction l as [|a l IH]; simpl; [reflexivity|].
  now rewrite H, IH.
Qed.

Lemma filter_all_iff {A : Type} (f : A -> bool) (l : list A) :
  filter f l = l <-> forallb f l = true.
Proof.
  induction l as [|a l IH]; simpl; [tauto|].
  destruct (f a) eqn:E; simpl.
  - rewrite <- IH. split; [intros [= H]; exact H | intros ->; reflexivity].
  - split; [|discriminate]. intros H.
    assert (Hin : In a (filter f l)) by (rewrite H; now left).
    apply filter_In in Hin as [_ Hfa]. congruence.
Qed.

(** An element is unchanged by its repair exactly when it is sound. *)
Lemma fixElement_fixed_iff B e :
  fixElement (elementMapOf B) e = e <-> soundElement B e = true.
Proof.
  unfold soundElement. split.
  - intros Hfix.
    assert (Hb : lookup "boundElements" (fixElement (elementMapOf B) e)
                 = lookup "boundElements" e) by now rewrite Hfix.
    assert (Hc : lookup "containerId" (fixElement (elementMapOf B) e)
                 = lookup "containerId" e) by now rewrite Hfix.
    rewrite fixElement_boundElements, fixBoundElements_result in Hb.
    rewrite fixElement_containerId, elementMapOf_has in Hc.
    apply andb_true_intro. split.
    + destruct (lookup "boundElements" e) as [| |b|q|s|bs|o];
        cbn [truthy] in *; try reflexivity.
      * destruct b; [discriminate | reflexivity].
      * destruct (negb _); [discriminate | reflexivity].
      * destruct (negb _); [discriminate | reflexivity].
      * destruct (filter _ bs) as [|b0 kept] eqn:F; [discriminate|].
        injection Hb as Hb. rewrite <- F in Hb.
        apply filter_all_iff in Hb.
        rewrite (forallb_pointwise _ _ bs (bindingFilter_validBinding B)) in Hb.
        rewrite Hb, andb_true_r.
        destruct bs; [discriminate | reflexivity].
      * discriminate.
    + destruct (truthy (lookup "containerId" e)) eqn:T; [|reflexivity].
      destruct (present B (lookup "containerId" e)); [reflexivity|].
      cbn in Hc. rewrite <- Hc in T. discriminate.
  - intros Hs. apply andb_prop in Hs as [Hb Hc].
    unfold fixElement.
    rewrite (fixBoundElements_fixed (elementMapOf B) e).
    + apply fixContainerId_fixed. rewrite elementMapOf_has.
      apply orb_prop in Hc as [Hc | Hc]; [left | now right].
      now apply negb_true_iff.
    + destruct (lookup "boundElements" e) as [| |b|q|s|bs|o];
        try (left; now apply negb_true_iff).
      right. exists bs. apply andb_prop in Hb as [Hne Hall].
      repeat split.
      * intros ->. discriminate.
      * apply filter_all_iff.
        now rewrite (forallb_pointwise _ _ bs (bindingFilter_validBinding B)).
Qed.

Lemma map_fixed_iff {A : Type} (f : A -> A) (l : list A) :
  map f l = l <-> forall a, In a l -> f a = a.
Proof.
  induction l as [|a l IH]; simpl; [tauto|]. split.
  - intros [= Ha Hl] x [<- | Hin]; auto. now apply IH.
  - intros H. f_equal; [now apply H; left | apply IH; auto].
Qed.

End SoundBatches.

(** The validator changes a batch exactly when something in it needs
    repair: a sound batch comes back as it is, an unsound one does not; and
    what the validator returns is always sound. *)
Theorem validateAndFixBindings_fixed_iff_sound (B : list Obj) :
  (validateAndFixBindings B = B <-> soundBatch B = true)
  /\ soundBatch (validateAndFixBindings B) = true.
Proof.
  assert (Hiff : forall B0, validateAndFixBindings B0 = B0
                            <-> soundBatch B0 = true).
  { intros B0. unfold validateAndFixBindings, soundBatch.
    rewrite map_fixed_iff, forallb_forall.
    split; intros H e Hin; apply fixElement_fixed_iff; auto. }
  split; [apply Hiff|].
  apply Hiff.
  assert (H : forall k, Map_has (elementMapOf (validateAndFixBindings B)) k
                        = Map_has (elementMapOf B) k).
  { intros k. rewrite !elementMapOf_has.
    apply present_validateAndFixBindings. }
  unfold validateAndFixBindings at 1; cbv zeta.
  rewrite (map_ext _ _ (fun e => fixElement_ext _ _ e H)).
  unfold validateAndFixBindings. rewrite map_map.
  apply map_ext. intros e. apply fixElement_idem.
Qed.

(** ** Cleaning and validating *)

Section CleanFacts.

Implicit Types (k : string) (v : JsVal) (o e : Obj) (m : JsMap Obj).

Lemma removeProp_filter k o :
  removeProp k o = filter (fun p => negb (fst p =? k)) o.
Proof.
  induction o as [|[k0 v0] o IH]; simpl; [reflexivity|].
  destruct (k0 =? k); simpl; now rewrite IH.
Qed.

Lemma filter_filter_and {A : Type} (f g : A -> bool) (l : list A) :
  filter f (filter g l) = filter (fun x => g x && f x) l.
Proof.
  induction l as [|a l IH]; simpl; [reflexivity|].
  destruct (g a); simpl; [destruct (f a)|]; now rewrite IH.
Qed.

(** Cleaning keeps, in order, the properties with other names. *)
Lemma cleanElementForPlait_filter e :
  cleanElementForPlait e
  = filter (fun p => negb (existsb (String.eqb (fst p)) bookkeepingFields)) e.
Proof.
  unfold cleanElementForPlait.
  generalize bookkeepingFields as ks. intros ks. revert e.
  induction ks as [|k ks IH]; intros e; cbn [fold_left existsb].
  - induction e as [|p e IHe]; simpl; [reflexivity | now f_equal].
  - rewrite IH, removeProp_filter, filter_filter_and.
    apply filter_ext. intros [k0 v0]. cbn [fst].
    now rewrite negb_orb.
Qed.

Lemma removeProp_setProp k k' v o :
  (k' =? k) = false ->
  removeProp k (setProp k' v o) = setProp k' v (removeProp k o).
Proof.
  intros Hne. induction o as [|[k0 v0] o IH]; simpl.
  - now rewrite Hne.
  - destruct (k0 =? k') eqn:E; simpl.
    + apply String.eqb_eq in E; subst k0. rewrite Hne. simpl.
      now rewrite String.eqb_refl.
    + destruct (k0 =? k) eqn:E'; simpl; [exact IH|].
      rewrite E. now rewrite IH.
Qed.

Lemma fixBoundElements_removeProp m k e :
  (k =? "boundElements") = false ->
  fixBoundElements m (removeProp k e) = removeProp k (fixBoundElements m e).
Proof.
  intros Hne. assert (Hne' := Hne). rewrite String.eqb_sym in Hne'.
  unfold fixBoundElements.
  rewrite (lookup_removeProp_neq _ _ _ Hne).
  destruct (truthy _); [|reflexivity].
  destruct (lookup "boundElements" e);
    rewrite ?removeProp_setProp by assumption; try reflexivity.
  destruct (_ =? _)%nat; now rewrite ?removeProp_setProp by assumption.
Qed.

Lemma fixContainerId_removeProp m k e :
  (k =? "containerId") = false ->
  fixContainerId m (removeProp k e) = removeProp k (fixContainerId m e).
Proof.
  intros Hne. assert (Hne' := Hne). rewrite String.eqb_sym in Hne'.
  rewrite !fixContainerId_has.
  rewrite (lookup_removeProp_neq _ _ _ Hne).
  destruct (_ && _); now rewrite ?removeProp_setProp by assumption.
Qed.

Lemma fixElement_cleanElementForPlait m e :
  fixElement m (cleanElementForPlait e)
  = cleanElementForPlait (fixElement m e).
Proof.
  unfold cleanElementForPlait, bookkeepingFields, fixElement.
  cbn [fold_left].
  now rewrite !fixBoundElements_removeProp, !fixContainerId_removeProp
    by reflexivity.
Qed.

Lemma existsb_map_clean (B : list Obj) (k : JsVal) :
  existsb (fun el => sameValueZero (lookup "id" el) k)
          (map cleanElementForPlait B)
  = existsb (fun el => sameValueZero (lookup "id" el) k) B.
Proof.
  induction B as [|el B IH]; simpl; [reflexivity|].
  rewrite IH. f_equal. f_equal.
  unfold cleanElementForPlait, bookkeepingFields. cbn [fold_left].
  now rewrite !lookup_removeProp_neq by reflexivity.
Qed.

Lemma lookup_id_cleanElementForPlait e :
  lookup "id" (cleanElementForPlait e) = lookup "id" e.
Proof.
  unfold cleanElementForPlait, bookkeepingFields. cbn [fold_left].
  now rewrite !lookup_removeProp_neq by reflexivity.
Qed.

End CleanFacts.

(** [cleanElementForPlait] takes out [createdAt], [updatedAt], [version],
    [syncedAt], [source] and [syncTimestamp] and nothing else: none of the
    six is a property of its result, which is the element without them, the
    other properties in their order; a property with another name is there
    as before and reads as before. An arrow line that holds its start
    binding under [source] loses it; its [target] stays. *)
Theorem cleanElementForPlait_strips (element : Obj) :
  hasProp "createdAt" (cleanElementForPlait element) = false
  /\ hasProp "updatedAt" (cleanElementForPlait element) = false
  /\ hasProp "version" (cleanElementForPlait element) = false
  /\ hasProp "syncedAt" (cleanElementForPlait element) = false
  /\ hasProp "source" (cleanElementForPlait element) = false
  /\ hasProp "syncTimestamp" (cleanElementForPlait element) = false
  /\ cleanElementForPlait element
     = filter (fun p => negb ((fst p =? "createdAt") || (fst p =? "updatedAt")
                             || (fst p =? "version") || (fst p =? "syncedAt")
                             || (fst p =? "source")
                             || (fst p =? "syncTimestamp")))
              element
  /\ (forall k,
        k <> "createdAt" -> k <> "updatedAt" -> k <> "version" ->
        k <> "syncedAt" -> k <> "source" -> k <> "syncTimestamp" ->
        hasProp k (cleanElementForPlait element) = hasProp k element
        /\ lookup k (cleanElementForPlait element) = lookup k element)
  /\ lookup "source" (cleanElementForPlait element) = JUndefined
  /\ lookup "target" (cleanElementForPlait element) = lookup "target" element.
Proof.
  assert (Hother : forall k,
             k <> "createdAt" -> k <> "updatedAt" -> k <> "version" ->
             k <> "syncedAt" -> k <> "source" -> k <> "syncTimestamp" ->
             hasProp k (cleanElementForPlait element) = hasProp k element
             /\ lookup k (cleanElementForPlait element) = lookup k element).
  { intros k H1 H2 H3 H4 H5 H6.
    apply String.eqb_neq in H1, H2, H3, H4, H5, H6.
    rewrite String.eqb_sym in H1, H2, H3, H4, H5, H6.
    unfold cleanElementForPlait, bookkeepingFields. cbn [fold_left]. split.
    - rewrite !hasProp_removeProp. now rewrite H1, H2, H3, H4, H5, H6.
    - now rewrite !lookup_removeProp_neq. }
  assert (Hgone : forall k, In k bookkeepingFields ->
                            hasProp k (cleanElementForPlait element) = false).
  { intros k Hk. unfold cleanElementForPlait, bookkeepingFields.
    cbn [fold_left]. rewrite !hasProp_removeProp.
    cbn in Hk. decompose [or] Hk; subst; try contradiction; reflexivity. }
  repeat (split; [apply Hgone; cbn; tauto|]).
  split; [|split; [exact Hother | split]].
  - rewrite cleanElementForPlait_filter. apply filter_ext. intros [k v].
    cbn [fst existsb bookkeepingFields].
    rewrite orb_false_r, !orb_assoc.
    now rewrite !(String.eqb_sym k).
  - assert (H : hasProp "source" (cleanElementForPlait element) = false)
      by (apply Hgone; cbn; tauto).
    revert H. generalize (cleanElementForPlait element) as o.
    induction o as [|[k v] o IH]; cbn; [reflexivity|].
    destruct (k =? "source"); [discriminate | exact IH].
  - apply Hother; discriminate.
Qed.

(** Cleaning and validating can be done in either order, and cleaning twice
    is cleaning once: stripping the bookkeeping fields of every element and
    then repairing the batch gives what repairing first and stripping
    afterwards gives. *)
Theorem clean_and_validate_commute (B : list Obj) :
  validateAndFixBindings (map cleanElementForPlait B)
  = map cleanElementForPlait (validateAndFixBindings B)
  /\ map cleanElementForPlait (map cleanElementForPlait B)
     = map cleanElementForPlait B.
Proof.
  split.
  - unfold validateAndFixBindings. rewrite !map_map.
    apply map_ext. intros e.
    rewrite <- fixElement_cleanElementForPlait.
    apply fixElement_ext. intros k. rewrite !elementMapOf_has.
    unfold present. rewrite existsb_map_clean. reflexivity.
  - rewrite map_map. apply map_ext. intros e.
    rewrite !cleanElementForPlait_filter. apply filter_idem.
Qed.

(** ** The Tool Bridge, case by case *)

Section BridgeOutcome.

Variable cfg : Config.
Variable net : Network.

(** A request that is not well formed is thrown out before any call. *)
Lemma callTool_rejects name args calls :
  wellFormedRequest name args = false ->
  exists message, callTool cfg net name args calls = (Throw message, calls).
Proof.
  unfold wellFormedRequest, callTool. intros Hwf.
  destruct (isCreationTool name) eqn:Hn; [|eexists; reflexivity].
  unfold bind at 1. unfold liftR.
  destruct (absent args) eqn:Ha.
  - destruct args; try discriminate; eexists; reflexivity.
  - assert (Hget : getPropE args "id" = Ok (getProp args "id"))
      by (destruct args; try discriminate; reflexivity).
    rewrite Hget.
    destruct (truthy (getProp args "id")) eqn:Hid; cbn [andb negb] in *;
      [|eexists; reflexivity].
    destruct (isCreationTool_cases _ Hn) as [-> | [-> | ->]];
      vm_compute expectedType in Hwf; rewrite Hwf; eexists; reflexivity.
Qed.

End BridgeOutcome.

(** The handler never throws: it answers every request. The answer is an
    error exactly when the request is not well formed, and the handler
    calls the repository at most once, exactly when the request is well
    formed and sync is not switched off; the call is a POST of the
    arguments to [/api/elements] under the configured base. *)
Theorem handleCallTool_outcome
        (cfg : Config) (net : Network) (name : string) (args : JsVal)
        (calls : Calls) :
  exists result,
    fst (handleCallTool cfg net name args calls) = Ok result
    /\ isError result = negb (wellFormedRequest name args)
    /\ snd (handleCallTool cfg net name args calls)
       = if wellFormedRequest name args && ENABLE_CANVAS_SYNC cfg
         then (calls ++ [createRequest cfg args])%list
         else calls.
Proof.
  destruct (wellFormedRequest name args) eqn:Hwf.
  - assert (Hargs : truthy args = true).
    { unfold wellFormedRequest in Hwf.
      apply andb_prop in Hwf as [Hwf _]. apply andb_prop in Hwf as [_ Hid].
      destruct (truthy_getProp_obj _ _ Hid) as [o ->]. reflexivity. }
    destruct (createElementOnCanvas_result cfg net args calls)
      as (result & calls' & Hsync & Hcreate).
    exists (successResult (js_or (optElement result) args)).
    assert (Hh : handleCallTool cfg net name args calls
                 = (Ok (successResult (js_or (optElement result) args)),
                    calls')).
    { unfold handleCallTool, try_catch.
      rewrite callTool_wellFormed by assumption.
      unfold bind at 1. rewrite Hcreate.
      now rewrite (js_or_truthy _ _ Hargs). }
    rewrite Hh. cbn [negb fst snd andb].
    repeat split.
    destruct (ENABLE_CANVAS_SYNC cfg) eqn:Hon.
    + rewrite syncToCanvas_create_on in Hsync by assumption.
      now injection Hsync as _ <-.
    + rewrite syncToCanvas_off in Hsync by assumption.
      now injection Hsync as _ <-.
  - destruct (callTool_rejects cfg net name args calls Hwf) as [message Hm].
    exists (errorResult message).
    unfold handleCallTool, try_catch. rewrite Hm. repeat split.
Qed.

(** What the success text shows: with sync on, a well-formed request is
    answered with the [element] of the repository's reply when the reply is
    ok, its body is JSON and that [element] is truthy, and with the
    submitted arguments in every other case (refused connection, error
    status, a body that is not JSON, a body without [element]). *)
Theorem handleCallTool_reported_element
        (cfg : Config) (net : Network) (name : string) (args : JsVal)
        (calls : Calls) :
  wellFormedRequest name args = true ->
  ENABLE_CANVAS_SYNC cfg = true ->
  handleCallTool cfg net name args calls
  = (Ok (successResult
           (match net (createRequest cfg args) with
            | Responds true _ _ (Ok reply) =>
                if truthy (optElement reply) then getProp reply "element"
                else args
            | _ => args
            end)),
     (calls ++ [createRequest cfg args])%list).
Proof.
  intros Hwf Hon.
  assert (Hargs : truthy args = true).
  { unfold wellFormedRequest in Hwf.
    apply andb_prop in Hwf as [Hwf0 _]. apply andb_prop in Hwf0 as [_ Hid].
    destruct (truthy_getProp_obj _ _ Hid) as [o ->]. reflexivity. }
  unfold handleCallTool, try_catch.
  rewrite callTool_wellFormed by assumption.
  unfold bind, createElementOnCanvas, bind.
  rewrite syncToCanvas_create_on by assumption.
  assert (Hpayload : forall calls0,
             (if negb (truthy args)
              then throw "Failed to create element: HTTP server unavailable"
              else ret (successResult args)) calls0
             = (Ok (successResult args), calls0 : Calls)).
  { intros calls0. now rewrite Hargs. }
  destruct (net (createRequest cfg args)) as [msg|ok st stt [reply|msg]].
  - unfold js_or, ret at 1; cbn [optElement truthy]. now rewrite Hpayload.
  - destruct ok.
    + unfold js_or, ret at 1.
      destruct (truthy (optElement reply)) eqn:To.
      * assert (He : optElement reply = getProp reply "element")
          by (destruct reply; try discriminate; reflexivity).
        rewrite He in *. now rewrite To.
      * now rewrite Hpayload.
    + unfold js_or, ret at 1; cbn [optElement truthy]. now rewrite Hpayload.
  - destruct ok; unfold js_or, ret at 1; cbn [optElement truthy];
      now rewrite Hpayload.
Qed.

(** [g1] sent to a live repository comes back with its [version]. *)
Lemma handleCallTool_reported_element_witness :
  handleCallTool cfg_default net_up "create_geometry_element" (JObj g1) []
  = (Ok (successResult (JObj (g1 ++ [("version", num 1)])%list)),
     [createRequest cfg_default (JObj g1)]).
Proof.
  apply (handleCallTool_reported_element
           cfg_default net_up "create_geometry_element" (JObj g1) []
           eq_refl eq_refl).
Defined.

(** ** The client, case by case *)

(** How a bulk upload ends. [syncToBackend] never throws and never leaves
    the status at [syncing]: it ends at [success] exactly when the response
    is ok, its body is JSON other than [null] and the [count] of the body
    can be printed for the log, and at [error] in every other case. The
    reset to [idle] after two seconds is scheduled exactly when it ends at
    [success]. [lastSyncTime] is written whenever the response is ok and its
    body is JSON, also when the status ends at [error] because the body is
    [null] or its [count] cannot be printed. The board, the elements and
    the id counter are not touched. *)
Theorem syncToBackend_outcome
        (numberToString : Q -> string)
        (net : Network) (now later : string) (a : App) :
  let request :=
    mkRequest "/api/elements/sync" "POST"
      (JObj [("elements", JArr (map JObj (backendElements (elements a))));
             ("timestamp", JStr now)]) in
  let a' := snd (syncToBackend numberToString net now later a) in
  let logged :=
    match net request with
    | Responds true _ _ (Ok body) =>
        negb (absent body)
        && match toStr numberToString (getProp body "count") with
           | Ok _ => true
           | Throw _ => false
           end
    | _ => false
    end in
  fst (syncToBackend numberToString net now later a) = Ok tt
  /\ syncStatus a' = (if logged then success else error)
  /\ timeouts a'
     = (if logged then timeouts a ++ [(2000%N, idle)] else timeouts a)%list
  /\ lastSyncTime a'
     = match net request with
       | Responds true _ _ (Ok _) => Some later
       | _ => lastSyncTime a
       end
  /\ board a' = board a /\ idCount a' = idCount a /\ elements a' = elements a.
Proof.
  cbv zeta.
  destruct (syncToBackend numberToString net now later a) as [r a'] eqn:H.
  unfold syncToBackend, bind, modify, try_catch, gets, client_fetch, bind,
    modify, throw, ret, liftR in H.
  cbn [elements setSyncStatus] in H.
  destruct (net _) as [msg|[|] st stt [body|msg]]; cbn [fst snd] in H;
    try (injection H as <- <-; cbn [fst snd]; repeat split; reflexivity).
  - destruct (absent body) eqn:Hab.
    + destruct body; try discriminate; injection H as <- <-;
        repeat split; reflexivity.
    + assert (Hget : getPropE body "count" = Ok (getProp body "count"))
        by now destruct body.
      rewrite Hget in H.
      destruct (toStr numberToString (getProp body "count"));
        injection H as <- <-; repeat split; reflexivity.
  - destruct (getPropE body "error"); injection H as <- <-;
      repeat split; reflexivity.
Qed.

Section ClientSteps.

Variable idCreator : nat -> string.
Variable buildText : JsVal -> JsVal -> Result JsVal.
Variable codeUnits : string -> list JsVal.

(** A converted element is [undefined], with no id drawn, or an object
    whose [id] is the id just drawn from the toolkit. *)
Lemma convertPlaitElement_fresh element a element' a1 :
  convertPlaitElement idCreator buildText codeUnits element a = (Ok element', a1) ->
  (element' = JUndefined /\ a1 = a)
  \/ exists o',
       element' = JObj o'
       /\ lookup "id" o' = JStr (idCreator (idCount a))
       /\ a1 = set_idCount (S (idCount a)) a.
Proof.
  unfold convertPlaitElement. unfold bind at 1. unfold liftR at 1.
  destruct (getPropE element "type") as [type|msg]; [|discriminate].
  destruct (strictEqStr type "geometry").
  - unfold bind, newId, bind, gets, modify, liftR, ret.
    destruct (buildText _ _) as [text|msg]; [|discriminate].
    intros [= <- <-]. right. eexists. repeat split.
    rewrite lookup_setProp_neq by discriminate. apply lookup_setProp_eq.
  - destruct (strictEqStr type "arrow-line");
      [|intros [= <- <-]; now left].
    unfold bind at 1. unfold newId, bind, gets, modify, ret.
    set (a2 := set_idCount (S (idCount a)) a).
    assert (Hst : forall r a3,
               match getProp element "texts" with
               | JUndefined | JNull => fun s : App => (Ok JUndefined, s)
               | JArr items =>
                   fun s =>
                     match mapM (convertArrowLineText buildText codeUnits) items s with
                     | (Ok ts, s') => (Ok (JArr ts), s')
                     | (Throw e, s') => (Throw e, s')
                     end
               | _ => throw "element.texts?.map is not a function"
               end a2 = (r, a3) -> a3 = a2).
    { intros r a3. destruct (getProp element "texts") as [| |b|q|s|items|o];
        try (intros [= _ <-]; reflexivity).
      pose proof (mapM_convertArrowLineText_state buildText codeUnits items a2) as Hs.
      destruct (mapM _ items a2) as [[ts|msg] a4]; cbn [snd] in Hs; subst a4;
        intros [= _ <-]; reflexivity. }
    match goal with
    | |- context [match ?c with _ => _ end] =>
        destruct c as [[texts|msg] a3] eqn:Hc; [|discriminate]
    end.
    apply Hst in Hc. subst a3.
    intros [= <- <-]. right. eexists. repeat split.
    rewrite lookup_setProp_neq by discriminate. apply lookup_setProp_eq.
Qed.

(** One message, by cases: nothing happens; an id is drawn and nothing
    else; [undefined] is appended; or an object with the id just drawn is
    appended. *)
Lemma handleWebSocketMessage_cases data a :
  handleWebSocketMessage idCreator buildText codeUnits data a = (Ok tt, a)
  \/ handleWebSocketMessage idCreator buildText codeUnits data a
     = (Ok tt, set_idCount (S (idCount a)) a)
  \/ exists cs,
       board a = Some cs
       /\ (handleWebSocketMessage idCreator buildText codeUnits data a
           = (Ok tt, set_board (Some (cs ++ [JUndefined])%list) a)
           \/ exists o',
                handleWebSocketMessage idCreator buildText codeUnits data a
                = (Ok tt, set_board (Some (cs ++ [JObj o'])%list)
                                    (set_idCount (S (idCount a)) a))
                /\ lookup "id" o' = JStr (idCreator (idCount a))).
Proof.
  destruct (handleWebSocketMessage idCreator buildText codeUnits data a)
    as [r a'] eqn:H.
  unfold handleWebSocketMessage, try_catch, bind at 1, liftR in H.
  destruct (getPropE data "type") as [type|msg];
    [|injection H as <- <-; now left].
  destruct (strictEqStr type "element_created");
    [|repeat match type of H with
             | context [if ?b then _ else _] => destruct b
             end; injection H as <- <-; now left].
  unfold bind at 1 in H.
  destruct (convertPlaitElement idCreator buildText codeUnits (getProp data "element") a)
    as [[element'|msg] a1] eqn:Hconv.
  - unfold bind, boardChildren, modify in H.
    destruct (convertPlaitElement_fresh _ _ _ _ Hconv)
      as [[-> ->] | (o' & -> & Hid & ->)].
    + destruct (board a) as [cs|] eqn:Hb;
        injection H as <- <-; [|now left].
      right; right. exists cs. split; auto. left.
      now rewrite insertNode_at_end.
    + cbn [board set_idCount] in H.
      destruct (board a) as [cs|] eqn:Hb;
        injection H as <- <-; [|now right; left].
      right; right. exists cs. split; auto. right. exists o'.
      now rewrite insertNode_at_end.
  - injection H as <- <-.
    destruct (convertPlaitElement_state _ _ _ _ _ _ _ Hconv) as [-> | ->];
      [now left | now right; left].
Qed.

End ClientSteps.

(** A push message never removes, replaces or reorders what is on the
    board: after any message the board's children are the children it had,
    followed by at most one new child. It writes nothing else of the client
    state but the id counter, which goes up by at most one. *)
Theorem handleWebSocketMessage_only_appends
        (idCreator : nat -> string)
        (buildText : JsVal -> JsVal -> Result JsVal)
        (codeUnits : string -> list JsVal)
        (data : JsVal) (a : App) :
  elements (snd (handleWebSocketMessage idCreator buildText codeUnits data a))
  = elements a
  /\ sent (snd (handleWebSocketMessage idCreator buildText codeUnits data a)) = sent a
  /\ syncStatus (snd (handleWebSocketMessage idCreator buildText codeUnits data a))
     = syncStatus a
  /\ lastSyncTime (snd (handleWebSocketMessage idCreator buildText codeUnits data a))
     = lastSyncTime a
  /\ timeouts (snd (handleWebSocketMessage idCreator buildText codeUnits data a))
     = timeouts a
  /\ (idCount (snd (handleWebSocketMessage idCreator buildText codeUnits data a))
      = idCount a
      \/ idCount (snd (handleWebSocketMessage idCreator buildText codeUnits data a))
         = S (idCount a))
  /\ (board (snd (handleWebSocketMessage idCreator buildText codeUnits data a))
      = board a
      \/ exists cs child,
           board a = Some cs
           /\ board (snd (handleWebSocketMessage idCreator buildText codeUnits data a))
              = Some (cs ++ [child])%list).
Proof.
  destruct (handleWebSocketMessage_cases idCreator buildText codeUnits data a)
    as [-> | [-> | (cs & Hcs & [-> | (o' & -> & _)])]];
    cbn [snd elements sent syncStatus lastSyncTime timeouts idCount board
         set_board set_idCount];
    repeat (split; [solve [auto]|]); try (now left);
    right; exists cs; eauto.
Qed.

(** An element that is neither geometry nor arrow-line (a freehand stroke,
    say) is not converted: on a ready board the message appends [undefined]
    to the children, and no id is drawn. *)
Theorem unconverted_element_appends_undefined
        (idCreator : nat -> string)
        (buildText : JsVal -> JsVal -> Result JsVal)
        (codeUnits : string -> list JsVal)
        (data : JsVal) (a : App) (cs : list JsVal) :
  strictEqStr (getProp data "type") "element_created" = true ->
  absent (getProp data "element") = false ->
  strictEqStr (getProp (getProp data "element") "type") "geometry" = false ->
  strictEqStr (getProp (getProp data "element") "type") "arrow-line" = false ->
  board a = Some cs ->
  handleWebSocketMessage idCreator buildText codeUnits data a
  = (Ok tt, set_board (Some (cs ++ [JUndefined])%list) a).
Proof.
  intros Hty Hel Hg Ha Hb.
  assert (Hd : getPropE data "type" = Ok (JStr "element_created")).
  { destruct data; try discriminate.
    cbn [getPropE]. destruct (getProp _ _); try discriminate.
    cbn in Hty. apply String.eqb_eq in Hty. now subst. }
  assert (He : getPropE (getProp data "element") "type"
               = Ok (getProp (getProp data "element") "type")).
  { destruct (getProp data "element"); try discriminate; reflexivity. }
  unfold handleWebSocketMessage, try_catch, bind at 1, liftR.
  rewrite Hd.
  change (strictEqStr (JStr "element_created") "element_created") with true.
  cbv iota. unfold bind at 1.
  unfold convertPlaitElement, bind at 1, liftR at 1.
  rewrite He, Hg, Ha.
  unfold ret at 1, bind, boardChildren, modify. rewrite Hb.
  now rewrite insertNode_at_end.
Qed.

(** The freehand stroke [f1] pushed to an empty board. *)
Lemma unconverted_element_appends_undefined_witness :
  handleWebSocketMessage sample_idCreator sample_buildText sample_codeUnits
                         (message "element_created" [("element", JObj f1)])
                         app0
  = (Ok tt, set_board (Some [JUndefined]) app0).
Proof.
  apply (unconverted_element_appends_undefined
           sample_idCreator sample_buildText sample_codeUnits
           (message "element_created" [("element", JObj f1)]) app0 []);
    reflexivity.
Defined.

Section ReceivedIds.

Variable idCreator : nat -> string.
Variable buildText : JsVal -> JsVal -> Result JsVal.
Variable codeUnits : string -> list JsVal.

Lemma NoDup_map_injective {A B : Type} (f : A -> B) (l : list A) :
  (forall x y, f x = f y -> x = y) -> NoDup l -> NoDup (map f l).
Proof.
  intros Hinj Hl. induction Hl as [|x l Hx Hl IH]; simpl; constructor; auto.
  intros Hin. apply in_map_iff in Hin as (y & Hy & Hin).
  apply Hinj in Hy. now subst.
Qed.

Lemma childIds_app cs cs' :
  childIds (cs ++ cs') = (childIds cs ++ childIds cs')%list.
Proof. unfold childIds. apply flat_map_app. Qed.

Lemma drawnIds_step n0 data a :
  drawnIds idCreator n0 a ->
  drawnIds idCreator n0
           (snd (handleWebSocketMessage idCreator buildText codeUnits data a)).
Proof.
  intros (cs & ks & Hb & Hids & Hnd & Hn0 & Hlt).
  destruct (handleWebSocketMessage_cases idCreator buildText codeUnits data a)
    as [-> | [-> | (cs' & Hcs' & [-> | (o' & -> & Hid)])]]; cbn [snd].
  - exists cs, ks. auto.
  - exists cs, ks. split; [exact Hb|]. split; [exact Hids|].
    split; [exact Hnd|]. cbn [idCount set_idCount]. split; [lia|].
    intros k Hk. apply Hlt in Hk. lia.
  - rewrite Hb in Hcs'. injection Hcs' as <-.
    exists (cs ++ [JUndefined])%list, ks. split; [reflexivity|].
    split; [|split; [exact Hnd | split; [exact Hn0 | exact Hlt]]].
    rewrite childIds_app. cbn. now rewrite List.app_nil_r.
  - rewrite Hb in Hcs'. injection Hcs' as <-.
    exists (cs ++ [JObj o'])%list, (ks ++ [idCount a])%list.
    split; [reflexivity|]. split; [|split; [|split]].
    + rewrite childIds_app, map_app, Hids. cbn. now rewrite Hid.
    + apply NoDup_app; auto.
      * repeat constructor. intros [].
      * intros k Hk [<- | []]. apply Hlt in Hk. lia.
    + cbn [idCount set_idCount set_board]. lia.
    + intros k Hk. cbn [idCount set_idCount set_board].
      apply in_app_or in Hk as [Hk | [<- | []]]; [apply Hlt in Hk|]; lia.
Qed.

Lemma drawnIds_receive n0 msgs a :
  drawnIds idCreator n0 a ->
  drawnIds idCreator n0 (receive idCreator buildText codeUnits msgs a).
Proof.
  revert a. induction msgs as [|data msgs IH]; intros a Ha; [exact Ha|].
  cbn [receive fold_left]. apply IH. now apply drawnIds_step.
Qed.

End ReceivedIds.

(** Ids on the board. Starting from an empty board, after any run of push
    messages the children of the board that are objects have pairwise
    distinct ids, provided the toolkit never hands out the same id twice:
    each id is one the toolkit drew during the run, never the id the
    element was sent with. *)
Theorem received_ids_are_distinct
        (idCreator : nat -> string)
        (buildText : JsVal -> JsVal -> Result JsVal)
        (codeUnits : string -> list JsVal)
        (msgs : list JsVal) (a : App) :
  (forall m n, idCreator m = idCreator n -> m = n) ->
  board a = Some [] ->
  exists cs ks,
    board (receive idCreator buildText codeUnits msgs a) = Some cs
    /\ NoDup (childIds cs)
    /\ childIds cs = map (fun k => JStr (idCreator k)) ks
    /\ forall k, In k ks ->
                 (idCount a <= k
                  < idCount (receive idCreator buildText codeUnits msgs a))%nat.
Proof.
  intros Hinj Hb.
  destruct (drawnIds_receive idCreator buildText codeUnits (idCount a) msgs a)
    as (cs & ks & Hcs & Hids & Hnd & _ & Hlt).
  { exists [], []. split; [exact Hb|]. split; [reflexivity|].
    split; [constructor|]. split; [lia | intros k []]. }
  exists cs, ks. repeat split; auto; try (apply Hlt; assumption).
  rewrite Hids. apply NoDup_map_injective; auto.
  intros x y [= H]. now apply Hinj.
Qed.

(** The stand-in [sample_idCreator] never repeats an id. *)
Lemma sample_idCreator_injective m n :
  sample_idCreator m = sample_idCreator n -> m = n.
Proof.
  unfold sample_idCreator. intros H. cbn in H. injection H as H.
  assert (Hnn : forall k, Nat.to_uint k <> Decimal.Nil).
  { intros k. rewrite <- (Unsigned.of_to k) at 1.
    rewrite Unsigned.to_of. apply unorm_nonnil. }
  apply (f_equal NilZero.uint_of_string) in H.
  rewrite !NilZero.usu in H by apply Hnn.
  injection H as H. now apply Unsigned.to_uint_inj.
Qed.

(** [pushed], the stroke [f1] and the arrow [a1] arriving in turn. *)
Lemma received_ids_are_distinct_witness :
  exists cs ks,
    board (receive sample_idCreator sample_buildText sample_codeUnits
                   [message "element_created" [("element", JObj pushed)];
                    message "element_created" [("element", JObj f1)];
                    message "element_created" [("element", JObj a1)]]
                   app0)
    = Some cs
    /\ NoDup (childIds cs)
    /\ childIds cs = map (fun k => JStr (sample_idCreator k)) ks
    /\ forall k, In k ks ->
         (idCount app0 <= k
          < idCount (receive sample_idCreator sample_buildText sample_codeUnits
                       [message "element_created" [("element", JObj pushed)];
                        message "element_created" [("element", JObj f1)];
                        message "element_created" [("element", JObj a1)]]
                       app0))%nat.
Proof.
  apply (received_ids_are_distinct
           sample_idCreator sample_buildText sample_codeUnits
           [message "element_created" [("element", JObj pushed)];
            message "element_created" [("element", JObj f1)];
            message "element_created" [("element", JObj a1)]]
           app0 sample_idCreator_injective eq_refl).
Defined.

(** ** [validateElement] *)

Section ValidateElementFacts.

Variable numberToString : Q -> string.

Lemma sameValueZero_JStr s v :
  sameValueZero (JStr s) v = true <-> v = JStr s.
Proof.
  destruct v; simpl; split; try discriminate.
  - intros H. apply String.eqb_eq in H. now subst.
  - intros [= ->]. apply String.eqb_refl.
Qed.

Lemma includes_element_types v :
  includes (map snd PLAIT_ELEMENT_TYPES) v = true
  <-> v = JStr "geometry" \/ v = JStr "arrow-line" \/ v = JStr "freehand".
Proof.
  unfold includes. cbn [map snd PLAIT_ELEMENT_TYPES existsb].
  rewrite !orb_true_iff, !sameValueZero_JStr. intuition discriminate.
Qed.

Lemma validateElement_accepts element :
  validateElement numberToString element = Ok true
  <-> hasProp "type" element = true /\ hasProp "shape" element = true
      /\ includes (map snd PLAIT_ELEMENT_TYPES) (lookup "type" element) = true.
Proof.
  unfold validateElement. cbn [forallb].
  destruct (hasProp "type" element), (hasProp "shape" element);
    cbn [andb negb]; try (split; [discriminate | intuition discriminate]).
  destruct (includes _ (lookup "type" element)); cbn [negb].
  - tauto.
  - split; [|intuition discriminate].
    destruct (toStr _ _); discriminate.
Qed.

End ValidateElementFacts.

(** [validateElement] accepts an element exactly when [type] and [shape]
    are properties of it and [type] is ["geometry"], ["arrow-line"] or
    ["freehand"]; it throws in every other case and never returns [false].
    The value of [shape] is not looked at: once the property is there,
    putting any other value in it changes nothing. *)
Theorem validateElement_accepts_iff
        (numberToString : Q -> string) (element : Obj) :
  (validateElement numberToString element = Ok true
   <-> hasProp "type" element = true /\ hasProp "shape" element = true
       /\ (lookup "type" element = JStr "geometry"
           \/ lookup "type" element = JStr "arrow-line"
           \/ lookup "type" element = JStr "freehand"))
  /\ (validateElement numberToString element = Ok true
      \/ exists message,
           validateElement numberToString element = Throw message)
  /\ (forall v,
        hasProp "shape" element = true ->
        validateElement numberToString (setProp "shape" v element)
        = validateElement numberToString element).
Proof.
  split; [|split].
  - rewrite validateElement_accepts, includes_element_types. reflexivity.
  - unfold validateElement.
    destruct (negb _); [right; eauto|].
    destruct (negb _); [|now left].
    destruct (toStr _ _); right; eauto.
  - intros v Hs. unfold validateElement. cbn [forallb].
    rewrite !hasProp_setProp, Hs.
    rewrite lookup_setProp_neq by discriminate.
    cbn [orb]. now rewrite !orb_false_r.
Qed.

(** What the bridge lets through, [validateElement] accepts: a well-formed
    creation request whose arguments have a [shape] passes
    [validateElement]. (The bridge does not ask for [shape];
    [validateElement] does not ask for [id].) *)
Theorem wellFormedRequest_validateElement
        (numberToString : Q -> string) (name : string) (params : Obj) :
  wellFormedRequest name (JObj params) = true ->
  hasProp "shape" params = true ->
  validateElement numberToString params = Ok true.
Proof.
  unfold wellFormedRequest. intros Hwf Hshape.
  apply andb_prop in Hwf as [Hwf Hty]. apply andb_prop in Hwf as [Hn _].
  cbn [getProp] in Hty.
  apply validateElement_accepts. split; [|split; [exact Hshape|]].
  - apply lookup_hasProp. intros E. rewrite E in Hty. discriminate.
  - apply includes_element_types.
    destruct (lookup "type" params); try discriminate.
    cbn in Hty. apply String.eqb_eq in Hty. subst s.
    destruct (isCreationTool_cases _ Hn) as [-> | [-> | ->]];
      vm_compute; auto.
Qed.

(** The rectangle [g1] sent to the geometry tool. *)
Lemma wellFormedRequest_validateElement_witness :
  validateElement sample_numberToString g1 = Ok true.
Proof.
  apply (wellFormedRequest_validateElement
           sample_numberToString "create_geometry_element" g1);
    reflexivity.
Defined.

(** ** [clearCanvas] *)

Section ClearCanvasFacts.

Variable numberToString : Q -> string.
Variable net : Network.

Lemma sendAll_snoc rs r a :
  sendAll (rs ++ [r]) a = add_sent r (sendAll rs a).
Proof. unfold sendAll. now rewrite fold_left_app. Qed.

Lemma sendAll_cons r rs a : sendAll (r :: rs) a = sendAll rs (add_sent r a).
Proof. reflexivity. Qed.

(** Sending requests adds them to the record of calls and touches nothing
    else. *)
Lemma sendAll_state rs a :
  sent (sendAll rs a) = (sent a ++ rs)%list
  /\ board (sendAll rs a) = board a
  /\ elements (sendAll rs a) = elements a
  /\ idCount (sendAll rs a) = idCount a
  /\ syncStatus (sendAll rs a) = syncStatus a
  /\ lastSyncTime (sendAll rs a) = lastSyncTime a
  /\ timeouts (sendAll rs a) = timeouts a.
Proof.
  revert a. induction rs as [|r rs IH]; intros a.
  - cbn. now rewrite List.app_nil_r.
  - rewrite sendAll_cons.
    destruct (IH (add_sent r a)) as (H1 & H2 & H3 & H4 & H5 & H6 & H7).
    rewrite H1, H2, H3, H4, H5, H6, H7. cbn. now rewrite <- List.app_assoc.
Qed.

Lemma deleteElement_cases element a :
  (exists message, deleteElement numberToString net element a
                   = (Throw message, a))
  \/ exists path,
       deleteElement numberToString net element a
       = (Ok (net (deleteRequest path)), add_sent (deleteRequest path) a)
       /\ (getPropE element "id" = Ok (getProp element "id"))
       /\ toStr numberToString (getProp element "id") = Ok path.
Proof.
  unfold deleteElement, bind, liftR, modify, ret.
  destruct (getPropE element "id") as [id|msg] eqn:Hid; [|left; eauto].
  assert (Hget : id = getProp element "id").
  { destruct element; try discriminate; now injection Hid as <-. }
  subst id.
  destruct (toStr numberToString (getProp element "id")) as [path|msg];
    [right | left; eauto].
  exists path. auto.
Qed.

(** The DELETEs of a run of [deleteElement], whether it ends or throws. *)
Lemma mapM_deleteElement_sends items a r a2 :
  mapM (deleteElement numberToString net) items a = (r, a2) ->
  exists deletes, a2 = sendAll deletes a /\ Forall isDelete deletes.
Proof.
  revert a r a2. induction items as [|element items IH]; intros a r a2.
  - intros [= _ <-]. exists []. split; [reflexivity | constructor].
  - cbn [mapM]. unfold bind at 1.
    destruct (deleteElement_cases element a)
      as [[msg ->] | (path & -> & _ & _)].
    + intros [= _ <-]. exists []. split; [reflexivity | constructor].
    + assert (Hd : isDelete (deleteRequest path))
        by (repeat split; now exists path).
      unfold bind at 1.
      destruct (mapM _ items (add_sent (deleteRequest path) a))
        as [[ys|msg] a3] eqn:Hrest;
        destruct (IH _ _ _ Hrest) as (deletes & Ha3 & Hall);
        intros [= _ <-]; subst a3;
        exists (deleteRequest path :: deletes);
        (split; [reflexivity | now constructor]).
Qed.

(** Elements with string ids: one DELETE each, in order. *)
Lemma mapM_deleteElement_ids items ids a :
  map (fun element => getProp element "id") items = map JStr ids ->
  mapM (deleteElement numberToString net) items a
  = (Ok (map (fun id => net (deleteRequest id)) ids),
     sendAll (map deleteRequest ids) a).
Proof.
  revert ids a. induction items as [|element items IH]; intros [|id ids] a;
    try discriminate; [reflexivity|].
  intros [= Hid Hrest]. cbn [mapM map].
  unfold bind at 1, deleteElement, bind, liftR, modify, ret.
  assert (Hget : getPropE element "id" = Ok (JStr id)).
  { destruct element; try discriminate; cbn in *; now rewrite Hid. }
  rewrite Hget. cbn [toStr].
  fold (deleteRequest id). rewrite (IH ids _ Hrest). reflexivity.
Qed.

(** [clearCanvas] ends normally, with the GET and then some DELETEs sent. *)
Lemma clearCanvas_shape a :
  exists deletes,
    clearCanvas numberToString net a
    = (Ok tt, sendAll deletes
                      (add_sent (mkRequest "/api/elements" "GET" JUndefined) a))
    /\ Forall isDelete deletes.
Proof.
  set (a1 := add_sent (mkRequest "/api/elements" "GET" JUndefined) a).
  assert (Hnone : exists deletes,
             (Ok tt, a1) = (Ok tt, sendAll deletes a1)
             /\ Forall isDelete deletes)
    by (exists []; split; [reflexivity | constructor]).
  unfold clearCanvas, try_catch, bind at 1, client_fetch, bind, modify, throw.
  fold a1.
  destruct (net _) as [msg|ok st stt [result|msg]]; try exact Hnone.
  unfold liftR, ret. cbn [snd].
  destruct (getPropE result "success") as [success|msg]; [|exact Hnone].
  destruct (truthy success && truthy (getProp result "elements"));
    [|exact Hnone].
  destruct (getProp result "elements") as [| |b|q|s|items|o];
    try exact Hnone.
  destruct (mapM (deleteElement numberToString net) items a1)
    as [[promises|msg] a2] eqn:Hmap;
    destruct (mapM_deleteElement_sends _ _ _ _ Hmap) as (deletes & -> & Hall);
    exists deletes; (split; [|exact Hall]);
    [destruct (existsb rejects promises)|]; reflexivity.
Qed.

End ClearCanvasFacts.

(** [clearCanvas] never throws and never clears the client: the board, the
    [elements] state and everything else but the record of calls are as
    they were. It sends one GET of the element list and after it nothing
    but DELETEs of paths under [/api/elements/]. *)
Theorem clearCanvas_leaves_client
        (numberToString : Q -> string) (net : Network) (a : App) :
  fst (clearCanvas numberToString net a) = Ok tt
  /\ board (snd (clearCanvas numberToString net a)) = board a
  /\ elements (snd (clearCanvas numberToString net a)) = elements a
  /\ idCount (snd (clearCanvas numberToString net a)) = idCount a
  /\ syncStatus (snd (clearCanvas numberToString net a)) = syncStatus a
  /\ lastSyncTime (snd (clearCanvas numberToString net a)) = lastSyncTime a
  /\ timeouts (snd (clearCanvas numberToString net a)) = timeouts a
  /\ exists deletes,
       sent (snd (clearCanvas numberToString net a))
       = (sent a ++ mkRequest "/api/elements" "GET" JUndefined :: deletes)%list
       /\ Forall (fun r => req_method r = "DELETE"
                           /\ req_body r = JUndefined
                           /\ exists path,
                                req_url r = "/api/elements/" ++ path)
                 deletes.
Proof.
  destruct (clearCanvas_shape numberToString net a) as (deletes & -> & Hall).
  cbn [fst snd].
  destruct (sendAll_state deletes
              (add_sent (mkRequest "/api/elements" "GET" JUndefined) a))
    as (H1 & H2 & H3 & H4 & H5 & H6 & H7).
  rewrite H1, H2, H3, H4, H5, H6, H7.
  repeat split. exists deletes. split; [|exact Hall].
  cbn [sent add_sent]. now rewrite <- List.app_assoc.
Qed.

(** When the repository answers the GET with a JSON body whose [success] is
    truthy and whose [elements] is an array of elements with string ids,
    whatever the status of that response, [clearCanvas] sends exactly one
    DELETE per listed element, in the order of the list, to
    [/api/elements/] followed by the id. *)
Theorem clearCanvas_deletes_listed
        (numberToString : Q -> string) (net : Network) (a : App)
        (ok : bool) (status : N) (statusText : string) (result : JsVal)
        (items : list JsVal) (ids : list string) :
  net (mkRequest "/api/elements" "GET" JUndefined)
  = Responds ok status statusText (Ok result) ->
  truthy (getProp result "success") = true ->
  getProp result "elements" = JArr items ->
  map (fun element => getProp element "id") items = map JStr ids ->
  sent (snd (clearCanvas numberToString net a))
  = (sent a ++ mkRequest "/api/elements" "GET" JUndefined
            :: map deleteRequest ids)%list.
Proof.
  intros Hnet Hsuccess Hitems Hids.
  assert (Hres : getPropE result "success" = Ok (getProp result "success")).
  { destruct result; try discriminate; reflexivity. }
  unfold clearCanvas, try_catch, bind at 1, client_fetch, bind, modify, throw.
  rewrite Hnet. unfold liftR, ret. cbn [snd].
  rewrite Hres, Hsuccess, Hitems. cbn [truthy andb].
  rewrite (mapM_deleteElement_ids numberToString net items ids _ Hids).
  destruct (existsb rejects _); cbn [snd];
    destruct (sendAll_state (map deleteRequest ids)
                (add_sent (mkRequest "/api/elements" "GET" JUndefined) a))
      as (H1 & _); rewrite H1; cbn [sent add_sent];
    now rewrite <- List.app_assoc.
Qed.

(** A repository listing [g1] and [t1]. *)
Lemma clearCanvas_deletes_listed_witness :
  sent (snd (clearCanvas sample_numberToString net_listing app_local))
  = [mkRequest "/api/elements" "GET" JUndefined;
     deleteRequest "g1"; deleteRequest "t1"].
Proof.
  apply (clearCanvas_deletes_listed
           sample_numberToString net_listing app_local
           true 200%N "OK"
           (JObj [("success", JBool true);
                  ("elements", JArr [JObj g1_stored; JObj t1]);
                  ("count", num 2)])
           [JObj g1_stored; JObj t1] ["g1"; "t1"]);
    reflexivity.
Defined.

(** ** The client from mount on *)

Section RunFacts.

Variable idCreator : nat -> string.
Variable buildText : JsVal -> JsVal -> Result JsVal.
Variable numberToString : Q -> string.
Variable codeUnits : string -> list JsVal.

Lemma emptyUploads_mounted n : emptyUploads (mounted n).
Proof.
  split; [reflexivity | intros r []].
Qed.

Lemma emptyUploads_same a a' :
  elements a' = elements a -> sent a' = sent a ->
  emptyUploads a -> emptyUploads a'.
Proof.
  intros He Hs [H1 H2]. split; [now rewrite He | now rewrite Hs].
Qed.

Lemma emptyUploads_act ac a :
  emptyUploads a ->
  emptyUploads (act idCreator buildText numberToString codeUnits ac a).
Proof.
  intros Ha. destruct ac as [children drawn|data|net now later|net|];
    cbn [act].
  - now apply (emptyUploads_same a).
  - destruct (handleWebSocketMessage_cases idCreator buildText codeUnits data a)
      as [-> | [-> | (cs & _ & [-> | (o' & -> & _)])]];
      now apply (emptyUploads_same a).
  - destruct (syncToBackend_request numberToString net now later a)
      as [Hs He].
    destruct Ha as [H1 H2]. split; [now rewrite He|].
    intros r Hr Hup. rewrite Hs in Hr. apply in_app_or in Hr.
    destruct Hr as [Hr | [<- | []]]; [now apply H2|].
    exists now. cbn [req_body]. now rewrite H1.
  - destruct (clearCanvas_shape numberToString net a)
      as (deletes & -> & Hall).
    cbn [snd].
    destruct (sendAll_state deletes
                (add_sent (mkRequest "/api/elements" "GET" JUndefined) a))
      as (Hs & _ & He & _).
    destruct Ha as [H1 H2]. split; [now rewrite He|].
    intros r Hr Hup. rewrite Hs in Hr. cbn [sent add_sent] in Hr.
    apply in_app_or in Hr. destruct Hr as [Hr | Hr].
    + apply in_app_or in Hr. destruct Hr as [Hr | [<- | []]];
        [now apply H2 | discriminate].
    + rewrite Forall_forall in Hall. destruct (Hall r Hr) as (Hm & _).
      unfold isUpload in Hup. rewrite Hm in Hup.
      now rewrite andb_false_r in Hup.
  - unfold runTimeout. destruct (timeouts a) as [|[delay st] rest];
      [exact Ha | now apply (emptyUploads_same a)].
Qed.

Lemma emptyUploads_run acts a :
  emptyUploads a ->
  emptyUploads (run idCreator buildText numberToString codeUnits acts a).
Proof.
  revert a. induction acts as [|ac acts IH]; intros a Ha; [exact Ha|].
  apply IH, emptyUploads_act, Ha.
Qed.

End RunFacts.



(** ** The connection supervisor *)

Section SupervisorFacts.

Implicit Types (l : list (string * ReadyState)) (c : Conn).

Lemma live_cons u st l :
  live ((u, st) :: l)
  = ((match st with CLOSED => 0 | _ => 1 end) + live l)%nat.
Proof. unfold live. simpl. now destruct st. Qed.

Lemma live_app l l' : live (l ++ l') = (live l + live l')%nat.
Proof. unfold live. now rewrite filter_app, length_app. Qed.

Lemma nth_error_setReadyState_eq i st l u st0 :
  nth_error l i = Some (u, st0) ->
  nth_error (setReadyState i st l) i = Some (u, st).
Proof.
  revert i. induction l as [|[u' st'] l IH]; intros [|i]; simpl;
    try discriminate.
  - now intros [= -> _].
  - apply IH.
Qed.

Lemma nth_error_setReadyState_neq i j st l :
  i <> j -> nth_error (setReadyState i st l) j = nth_error l j.
Proof.
  revert i j. induction l as [|[u' st'] l IH]; intros [|i] [|j] Hne; simpl;
    try reflexivity; try congruence.
  apply IH. congruence.
Qed.

Lemma live_setReadyState i st l u st0 :
  nth_error l i = Some (u, st0) ->
  (live (setReadyState i st l) + match st0 with CLOSED => 0 | _ => 1 end
   = live l + match st with CLOSED => 0 | _ => 1 end)%nat.
Proof.
  revert i. induction l as [|[u' st'] l IH]; intros [|i]; simpl;
    try discriminate.
  - intros [= -> ->]. rewrite !live_cons. lia.
  - intros H. rewrite !live_cons. specialize (IH _ H). lia.
Qed.

Lemma live_positive i l u st :
  nth_error l i = Some (u, st) -> st <> CLOSED -> (1 <= live l)%nat.
Proof.
  revert i. induction l as [|[u' st'] l IH]; intros [|i]; simpl;
    try discriminate.
  - intros [= -> ->] Hst. rewrite live_cons. destruct st; try lia.
    congruence.
  - intros H Hst. rewrite live_cons. specialize (IH _ H Hst). lia.
Qed.

Lemma supervised_mount loc : supervised (connectWebSocket loc conn0).
Proof.
  unfold supervised. cbn. split; [lia | split].
  - intros [|[|i]] u st; cbn; try discriminate; auto.
  - discriminate.
Qed.

Lemma supervised_deliver loc ev c c' :
  supervised c -> deliver loc ev c = Some c' -> supervised c'.
Proof.
  intros (Hone & Hcur & Hconn). destruct ev as [i|i|i code|]; cbn [deliver].
  - (* a socket opens *)
    destruct (nth_error (sockets c) i) as [[u st]|] eqn:Hi; [|discriminate].
    destruct st; try discriminate. intros [= <-].
    assert (Href : websocketRef c = Some i)
      by (eapply Hcur; [exact Hi | discriminate]).
    unfold supervised, onopen; cbn [sockets websocketRef isConnected timers].
    split; [|split].
    + pose proof (live_setReadyState i OPEN _ _ _ Hi) as Hlive.
      cbv iota in Hlive. lia.
    + intros j u' st' Hj Hst.
      destruct (Nat.eq_dec i j) as [<- | Hne]; [exact Href|].
      rewrite nth_error_setReadyState_neq in Hj by assumption. eauto.
    + intros _. exists i, u. split; [exact Href|].
      eapply nth_error_setReadyState_eq; eauto.
  - (* a socket reports an error *)
    destruct (nth_error (sockets c) i) as [[u st]|] eqn:Hi; [|discriminate].
    assert (Hc' : Some (onerror c) = Some c' -> supervised c').
    { intros [= <-].
      unfold supervised, onerror; cbn [sockets websocketRef isConnected timers].
      split; [exact Hone | split; [exact Hcur | discriminate]]. }
    destruct st; try discriminate; exact Hc'.
  - (* a socket closes *)
    destruct (nth_error (sockets c) i) as [[u st]|] eqn:Hi; [|discriminate].
    assert (Hc' : st <> CLOSED ->
                  Some (onclose code
                          (mkConn (setReadyState i CLOSED (sockets c))
                                  (websocketRef c) (isConnected c) (timers c)))
                  = Some c' -> supervised c').
    { intros Hst [= <-].
      pose proof (live_positive _ _ _ _ Hi Hst) as Hpos.
      pose proof (live_setReadyState i CLOSED _ _ _ Hi) as Hlive.
      assert (Hl : live (setReadyState i CLOSED (sockets c)) = 0%nat)
        by (destruct st; try congruence; cbv iota in Hlive; lia).
      assert (Ht : timers c = []).
      { destruct (timers c); [reflexivity|].
        cbn [List.length] in Hone. lia. }
      unfold supervised, onclose; cbn [sockets websocketRef isConnected timers].
      split; [|split].
      - rewrite Hl, Ht. destruct (negb _); cbn [List.length app]; lia.
      - intros j u' st' Hj Hst'.
        pose proof (live_positive _ _ _ _ Hj Hst'). lia.
      - discriminate. }
    destruct st; try discriminate; apply Hc'; discriminate.
  - (* the reconnect timer fires *)
    destruct (timers c) as [|d rest] eqn:Ht; [discriminate|].
    cbn [List.length] in Hone.
    assert (Hl : live (sockets c) = 0%nat) by lia.
    assert (Hr : rest = []).
    { destruct rest; [reflexivity|]. cbn [List.length] in Hone. lia. }
    assert (Hdead : forall j u st,
               nth_error (sockets c) j = Some (u, st) -> st = CLOSED).
    { intros j u st Hj. destruct st; auto;
        (assert (Hp : (1 <= live (sockets c))%nat)
           by (eapply live_positive; [exact Hj | discriminate]); lia). }
    assert (Hfalse : isConnected c = false).
    { destruct (isConnected c); auto.
      destruct (Hconn eq_refl) as (j & u & _ & Hj).
      apply Hdead in Hj. discriminate. }
    assert (Hcreate :
              connectWebSocket loc
                (mkConn (sockets c) (websocketRef c) (isConnected c) rest)
              = mkConn (sockets c ++ [(wsUrl loc, CONNECTING)])%list
                       (Some (List.length (sockets c))) (isConnected c) rest).
    { unfold connectWebSocket;
        cbn [sockets websocketRef isConnected timers].
      destruct (websocketRef c) as [j|]; [|reflexivity].
      destruct (nth_error (sockets c) j) as [[u st]|] eqn:Hj; [|reflexivity].
      apply Hdead in Hj. now subst st. }
    rewrite Hcreate. intros [= <-]. subst rest.
    unfold supervised; cbn [sockets websocketRef isConnected timers].
    split; [|split].
    + rewrite live_app, Hl. cbn. lia.
    + intros j u st Hj Hst.
      destruct (Nat.lt_ge_cases j (List.length (sockets c))) as [Hlt | Hge].
      * rewrite nth_error_app1 in Hj by assumption.
        apply Hdead in Hj. contradiction.
      * rewrite nth_error_app2 in Hj by assumption.
        destruct (j - List.length (sockets c))%nat as [|k] eqn:Hk;
          [f_equal; lia | destruct k; discriminate].
    + rewrite Hfalse. discriminate.
Qed.

End SupervisorFacts.



(** ** The server with two tools *)

Section TwoToolsFacts.

Variable cfg : Config.
Variable net : Network.

(** Past its one check, the two-tool handler is [createElementOnCanvas]
    and the success text. *)
Lemma callTool_twoTools_object name o calls :
  name = "create_geometry_element"
  \/ (name = "create_arrow_line_element"
      /\ strictEqStr (lookup "type" o) "arrow-line" = true) ->
  exists canvasElement calls',
    createElementOnCanvas cfg net (JObj o) calls = (Ok canvasElement, calls')
    /\ callTool_twoTools cfg net name (JObj o) calls
       = (Ok (successResult_twoTools canvasElement), calls').
Proof.
  intros Hname.
  destruct (createElementOnCanvas_result cfg net (JObj o) calls)
    as (result & calls' & _ & Hcreate).
  exists (js_or (optElement result) (JObj o)), calls'.
  split; [exact Hcreate|].
  assert (Ht : truthy (js_or (optElement result) (JObj o)) = true)
    by now apply js_or_truthy.
  destruct Hname as [-> | [-> Hty]]; unfold callTool_twoTools;
    cbn [String.eqb Ascii.eqb Bool.eqb orb andb].
  - unfold bind at 1. unfold ret at 1. unfold bind at 1.
    unfold liftR, getPropE. unfold bind at 1.
    now rewrite Hcreate, Ht.
  - unfold bind at 1. unfold bind at 1. unfold liftR at 1. cbn [getPropE getProp].
    rewrite Hty. cbn [negb]. unfold ret at 1. unfold bind at 1.
    unfold liftR, getPropE. unfold bind at 1.
    now rewrite Hcreate, Ht.
Qed.

End TwoToolsFacts.

(** The two server files agree where the stricter one accepts: a request
    the three-tool handler takes as well formed, for the geometry or the
    arrow-line tool, gets from the two-tool handler the same element in its
    success text and the same network call. *)
Theorem twoTools_agrees_on_wellFormed
        (cfg : Config) (net : Network) (name : string) (args : JsVal)
        (calls : Calls) :
  wellFormedRequest name args = true ->
  (name =? "create_freehand_element") = false ->
  exists canvasElement calls',
    handleCallTool cfg net name args calls
    = (Ok (successResult canvasElement), calls')
    /\ handleCallTool_twoTools cfg net name args calls
       = (Ok (successResult_twoTools canvasElement), calls').
Proof.
  intros Hwf Hfree.
  assert (Hwf' := Hwf). unfold wellFormedRequest in Hwf'.
  apply andb_prop in Hwf' as [Hwf' Hty]. apply andb_prop in Hwf' as [Hn Hid].
  destruct (truthy_getProp_obj _ _ Hid) as [o ->].
  assert (Hname : name = "create_geometry_element"
                  \/ (name = "create_arrow_line_element"
                      /\ strictEqStr (lookup "type" o) "arrow-line" = true)).
  { destruct (isCreationTool_cases _ Hn) as [-> | [-> | ->]];
      [now left | right; split; [reflexivity | exact Hty] | discriminate]. }
  destruct (callTool_twoTools_object cfg net name o calls Hname)
    as (canvasElement & calls' & Hcreate & Htwo).
  exists canvasElement, calls'. split.
  - unfold handleCallTool, try_catch.
    rewrite callTool_wellFormed by assumption.
    unfold bind at 1. rewrite Hcreate.
    assert (Ht : truthy canvasElement = true).
    { destruct (createElementOnCanvas_result cfg net (JObj o) calls)
        as (result & calls0 & _ & Hc).
      rewrite Hc in Hcreate. injection Hcreate as <- _.
      now apply js_or_truthy. }
    now rewrite Ht.
  - unfold handleCallTool_twoTools, try_catch. now rewrite Htwo.
Qed.

(** [g1] sent to both servers with the repository down. *)
Lemma twoTools_agrees_on_wellFormed_witness :
  exists canvasElement calls',
    handleCallTool cfg_default net_down "create_geometry_element" (JObj g1) []
    = (Ok (successResult canvasElement), calls')
    /\ handleCallTool_twoTools cfg_default net_down "create_geometry_element"
                               (JObj g1) []
       = (Ok (successResult_twoTools canvasElement), calls').
Proof.
  apply (twoTools_agrees_on_wellFormed
           cfg_default net_down "create_geometry_element" (JObj g1) []);
    reflexivity.
Defined.

(** The two-tool handler checks less: its geometry tool takes any object,
    with or without [id] and whatever its [type], and answers with the
    success text for what [createElementOnCanvas] returned; the freehand
    tool is unknown to it. *)
Theorem twoTools_takes_any_geometry
        (cfg : Config) (net : Network) (params : Obj) (args : JsVal)
        (calls : Calls) :
  (exists canvasElement calls',
     createElementOnCanvas cfg net (JObj params) calls
     = (Ok canvasElement, calls')
     /\ handleCallTool_twoTools cfg net "create_geometry_element"
                                (JObj params) calls
        = (Ok (successResult_twoTools canvasElement), calls'))
  /\ handleCallTool_twoTools cfg net "create_freehand_element" args calls
     = (Ok (errorResult "Unknown tool: create_freehand_element"), calls).
Proof.
  split; [|reflexivity].
  destruct (callTool_twoTools_object
              cfg net "create_geometry_element" params calls)
    as (canvasElement & calls' & Hcreate & Htwo); [now left|].
  exists canvasElement, calls'. split; [exact Hcreate|].
  unfold handleCallTool_twoTools, try_catch. now rewrite Htwo.
Qed.
